(** * Goodreads shelf scraper: a shallow embedding of [goodreads_scraper.py]

    The development follows the Python module function by function.

    - Text is a [string] of code points below 256; on that range Python's
      [str.strip] and the regular-expression class [\d] are the predicates
      [py_isspace] and [is_digit] below.
    - A parsed page is a tree of [node]s holding what the scraper reads of
      an element: its name, its [class] list, its [href] and its children.
    - A book is the dictionary the scraper builds, a [gmap string value].
    - Console, files, requests and pauses are threaded through a [world].
    - The HTTP client answers through [server]; [urljoin], [float], [repr]
      and [prettify] are the library functions of the same names, taken as
      parameters.
    - A call that may raise has a [result]: the text of the exception, or
      the value returned.  [urljoin] and [int] raise [ValueError]. *)

From Stdlib Require Import Ascii String ZArith List.
From stdpp Require Import gmap strings list pretty sorting.
From Equations Require Import Equations.

Set Warnings "-register-all".

Local Open Scope Z_scope.

(** ** Text *)

Definition is_digit (c : ascii) : bool :=
  let n := N_of_ascii c in ((48 <=? n) && (n <=? 57))%N.

(** Code points below 256 that [str.strip] removes. *)
Definition py_isspace (c : ascii) : bool :=
  let n := N_of_ascii c in
  ((9 <=? n) && (n <=? 13) || (28 <=? n) && (n <=? 32)
   || (n =? 133) || (n =? 160))%N.

Fixpoint lstrip (s : string) : string :=
  match s with
  | String c s' => if py_isspace c then lstrip s' else s
  | EmptyString => EmptyString
  end.

Fixpoint rstrip (s : string) : string :=
  match s with
  | String c s' =>
      match rstrip s' with
      | EmptyString => if py_isspace c then EmptyString else String c EmptyString
      | r => String c r
      end
  | EmptyString => EmptyString
  end.

(** [s.strip()] *)
Definition strip (s : string) : string := rstrip (lstrip s).

(** [re.search(pat, s)] for a pattern without metacharacters. *)
Fixpoint contains (pat s : string) : bool :=
  String.prefix pat s ||
  match s with
  | String _ s' => contains pat s'
  | EmptyString => false
  end.

(** [re.search(r'(\d{4})', s)] and its [group(1)]. *)
Fixpoint re_search_d4 (s : string) : option string :=
  match s with
  | String a s' =>
      match s' with
      | String b (String c (String d _)) =>
          if is_digit a && is_digit b && is_digit c && is_digit d
          then Some (String a (String b (String c (String d EmptyString))))
          else re_search_d4 s'
      | _ => None
      end
  | EmptyString => None
  end.

Fixpoint take_digits (s : string) : string :=
  match s with
  | String c s' => if is_digit c then String c (take_digits s') else EmptyString
  | EmptyString => EmptyString
  end.

(** [re.search(r'(\d+)', s)] and its [group(1)]. *)
Fixpoint re_search_digits (s : string) : option string :=
  match s with
  | String c s' => if is_digit c then Some (take_digits s) else re_search_digits s'
  | EmptyString => None
  end.

Fixpoint int_of_digits_from (acc : Z) (s : string) : Z :=
  match s with
  | String c s' => int_of_digits_from (10 * acc + (Z.of_N (N_of_ascii c) - 48)) s'
  | EmptyString => acc
  end.

(** [int(m.group(1))] on a run of decimal digits. *)
Definition int_of_digits (s : string) : Z := int_of_digits_from 0 s.

(** Code points below 256 that [int] skips before and after a numeral:
    those of [str.strip] but the separators 28 to 31. *)
Definition int_isspace (c : ascii) : bool :=
  let n := N_of_ascii c in
  ((9 <=? n) && (n <=? 13) || (n =? 32) || (n =? 133) || (n =? 160))%N.

Fixpoint skip_spaces (s : string) : string :=
  match s with
  | String c s' => if int_isspace c then skip_spaces s' else s
  | EmptyString => EmptyString
  end.

(** The run of digits and underscores at the head of [s], read as [int]
    reads it: its value, the number of its digits and what follows it.
    [None] when the run has no digit, or an underscore of it is not between
    two digits. *)
Fixpoint scan_digits (acc : Z) (digits : nat) (after_digit : bool) (s : string)
  : option (Z * nat * string) :=
  match s with
  | String c s' =>
      if is_digit c
      then scan_digits (10 * acc + (Z.of_N (N_of_ascii c) - 48)) (S digits) true s'
      else if bool_decide (c = "_"%char)
      then if after_digit then scan_digits acc digits false s' else None
      else if after_digit then Some (acc, digits, s) else None
  | EmptyString => if after_digit then Some (acc, digits, s) else None
  end.

(** [s.replace(old, '')] for a non-empty [old]. *)
Fixpoint drop_prefix (p s : string) : option string :=
  match p, s with
  | EmptyString, _ => Some s
  | String a p', String b s' => if bool_decide (a = b) then drop_prefix p' s' else None
  | String _ _, EmptyString => None
  end.

Fixpoint remove_all_from (fuel : nat) (old s : string) : string :=
  match fuel with
  | O => s
  | S fuel' =>
      match drop_prefix old s with
      | Some rest => remove_all_from fuel' old rest
      | None =>
          match s with
          | String c s' => String c (remove_all_from fuel' old s')
          | EmptyString => EmptyString
          end
      end
  end.

Definition remove_all (old s : string) : string :=
  remove_all_from (S (String.length s)) old s.

(** ** Parsed markup *)

Inductive node : Type :=
| NavigableString (s : string)
| Tag (name : string) (class_ : list string) (href : option string)
      (contents : list node).

Definition soup := node.

(** The elements below [n], in document order. *)
Fixpoint descendants (n : node) : list node :=
  match n with
  | NavigableString _ => []
  | Tag _ _ _ cs => flat_map (fun c => c :: descendants c) cs
  end.

Definition tag_name (n : node) : option string :=
  match n with Tag nm _ _ _ => Some nm | NavigableString _ => None end.

(** [tag.get('class', [])] *)
Definition get_class (n : node) : list string :=
  match n with Tag _ cls _ _ => cls | NavigableString _ => [] end.

Definition get_href (n : node) : option string :=
  match n with Tag _ _ h _ => h | NavigableString _ => None end.

Definition is_tag (name : string) (n : node) : bool :=
  bool_decide (tag_name n = Some name).

(** A [class_] filter holds of an element when one of its classes passes it,
    or else the whole attribute (the classes joined by one space) does. *)
Definition class_matches (p : string -> bool) (n : node) : bool :=
  existsb p (get_class n) ||
  match get_class n with
  | [] => false
  | cls => p (String.concat " " cls)
  end.

Definition class_is (c : string) : string -> bool := fun x => bool_decide (x = c).

(** [tag.find_all(name, ...)] with a further test on the element. *)
Definition find_all (name : string) (p : node -> bool) (n : node) : list node :=
  List.filter (fun x => is_tag name x && p x) (descendants n).

(** [tag.find(name, ...)]: the first result of [find_all], or [None]. *)
Definition find (name : string) (p : node -> bool) (n : node) : option node :=
  head (find_all name p n).

Definition any_tag : node -> bool := fun _ => true.

(** [href=re.compile(r'/book/show/')] *)
Definition href_is_book (n : node) : bool :=
  match get_href n with
  | Some h => contains "/book/show/" h
  | None => false
  end.

(** The strings below an element, each stripped, the empty ones dropped. *)
Definition stripped_strings (n : node) : list string :=
  omap (fun x => match x with
                 | NavigableString s =>
                     let t := strip s in
                     if bool_decide (t = "") then None else Some t
                 | Tag _ _ _ _ => None
                 end) (descendants n).

(** [tag.get_text(strip=True)] *)
Definition get_text (n : node) : string := String.concat "" (stripped_strings n).

(** [tag.string] *)
Fixpoint tag_string (n : node) : option string :=
  match n with
  | NavigableString s => Some s
  | Tag _ _ _ [c] => tag_string c
  | Tag _ _ _ _ => None
  end.

(** ** Exceptions *)

(** The outcome of a call that may raise: the text of the exception, as
    [str(e)] gives it, or the value returned. *)
Inductive result (A : Type) : Type :=
| Raised (message : string)
| Returned (a : A).

Arguments Raised {A} message.
Arguments Returned {A} a.

#[global] Instance result_ret : MRet result := fun A x => Returned x.
#[global] Instance result_bind : MBind result :=
  fun A B f m => match m with Raised e => Raised e | Returned x => f x end.

(** ** Library functions *)

(** What the scraper takes from Python and its libraries without this
    development looking inside: the [float] type with [float(s)] ([None]
    for [ValueError]), the truth value of a float, its [str] and its [int]
    ([None] for the [ValueError] of a NaN; the [OverflowError] of an
    infinity is not modelled), [urllib.parse.urljoin], which raises
    [ValueError] on some references, [tag.prettify()], [repr] on strings,
    and the interpreter's limit on the digits of a numeral,
    [sys.get_int_max_str_digits()], 0 when there is none. *)
Class Library : Type := {
  float : Type;
  py_float : string -> option float;
  float_bool : float -> bool;
  float_str : float -> string;
  float_int : float -> option Z;
  urljoin : string -> string -> result string;
  prettify : node -> string;
  repr : string -> string;
  int_max_str_digits : nat
}.

(** ** Books *)

(** What a dictionary of the scraper holds under a key. *)
Inductive value {lib : Library} : Type :=
| VStr (s : string)
| VInt (z : Z)
| VFloat (f : float).

(** One scraped book: the dictionary [book_info]. *)
Abbreviation book := (gmap string value).

Section Scraper.

Context {lib : Library}.

(** The truth value of [d.get(key)]. *)
Definition truthy (v : option value) : bool :=
  match v with
  | Some (VStr s) => negb (bool_decide (s = ""))
  | Some (VInt z) => negb (z =? 0)
  | Some (VFloat f) => float_bool f
  | None => false
  end.

Definition base_url : string := "https://www.goodreads.com".

(** [elem.find('td', class_=field)] *)
Definition find_td (field : string) (n : node) : option node :=
  find "td" (class_matches (class_is field)) n.

(** [elem.find('div', class_='value')] *)
Definition find_value (n : node) : option node :=
  find "div" (class_matches (class_is "value")) n.

(** [elem.find('a')] *)
Definition find_a (n : node) : option node := find "a" any_tag n.

(** [link.get('href', '')] *)
Definition href_or_empty (n : node) : string := default "" (get_href n).

(** What [int] makes of [t], the text of [s] after the leading white space
    and the sign: a run of digits, then white space up to the end.  It
    raises [ValueError] on anything else and, when the interpreter has a
    limit, on a run of more digits than the limit (the interpreter looks at
    the limit from 641 digits on). *)
Definition int_numeral (s : string) (negative : bool) (t : string) : result Z :=
  let invalid :=
    Raised ("invalid literal for int() with base 10: "
            +:+ String.substring 0 200 (repr s)) in
  match scan_digits 0 0 false t with
  | None => invalid
  | Some (n, digits, rest) =>
      if (640 <? digits)%nat && (0 <? int_max_str_digits)%nat
         && (int_max_str_digits <? digits)%nat
      then Raised ("Exceeds the limit (" +:+ pretty int_max_str_digits
                   +:+ " digits) for integer string conversion: value has "
                   +:+ pretty digits
                   +:+ " digits; use sys.set_int_max_str_digits() to increase the limit")
      else match skip_spaces rest with
           | EmptyString => Returned (if negative then - n else n)
           | _ => invalid
           end
  end.

(** [int(s)] for a string [s]. *)
Definition py_int (s : string) : result Z :=
  match skip_spaces s with
  | String "+" r => int_numeral s false r
  | String "-" r => int_numeral s true r
  | t => int_numeral s false t
  end.

Definition extract_title (book_entry : node) (book_info : book) : result book :=
  match find_td "field title" book_entry with
  | Some title_elem =>
      match find_a title_elem with
      | Some title_link =>
          let book_info := <["title" := VStr (get_text title_link)]> book_info in
          book_url ← urljoin base_url (href_or_empty title_link);
          mret (<["book_url" := VStr book_url]> book_info)
      | None => mret book_info
      end
  | None => mret book_info
  end.

Definition extract_author (book_entry : node) (book_info : book) : result book :=
  match find_td "field author" book_entry with
  | Some author_elem =>
      match find_a author_elem with
      | Some author_link =>
          let book_info := <["author" := VStr (get_text author_link)]> book_info in
          author_url ← urljoin base_url (href_or_empty author_link);
          mret (<["author_url" := VStr author_url]> book_info)
      | None => mret book_info
      end
  | None => mret book_info
  end.

(** The test [text and text != 'None']. *)
Definition has_value (text : string) : bool :=
  negb (bool_decide (text = "")) && negb (bool_decide (text = "None")).

Definition extract_isbn (book_entry : node) (book_info : book) : book :=
  match find_td "field isbn" book_entry with
  | Some isbn_elem =>
      match find_value isbn_elem with
      | Some isbn_value =>
          let isbn_text := get_text isbn_value in
          if has_value isbn_text
          then <["isbn" := VStr isbn_text]> book_info
          else book_info
      | None => book_info
      end
  | None => book_info
  end.

Definition extract_publish_date (book_entry : node) (book_info : book) : book :=
  match find_td "field date_pub" book_entry with
  | Some pub_date_elem =>
      match find_value pub_date_elem with
      | Some pub_date_value =>
          let pub_date_text := get_text pub_date_value in
          if has_value pub_date_text
          then match re_search_d4 pub_date_text with
               | Some year => <["publish_date" := VStr year]> book_info
               | None => <["publish_date" := VStr pub_date_text]> book_info
               end
          else book_info
      | None => book_info
      end
  | None => book_info
  end.

(** [sum(1 for star in static_stars if 'p10' in star.get('class', []))] *)
Definition filled_stars (static_stars : list node) : Z :=
  Z.of_nat (length (List.filter
    (fun star => bool_decide ("p10" ∈ get_class star)) static_stars)).

Definition extract_rating (book_entry : node) (book_info : book) : book :=
  match find_td "field rating" book_entry with
  | Some rating_elem =>
      match find_value rating_elem with
      | Some rating_value =>
          let static_stars :=
            find_all "span" (class_matches (class_is "staticStar")) rating_value in
          match static_stars with
          | [] => book_info
          | _ =>
              if 0 <? filled_stars static_stars
              then <["rating" := VInt (filled_stars static_stars)]> book_info
              else book_info
          end
      | None => book_info
      end
  | None => book_info
  end.

Definition extract_avg_rating (book_entry : node) (book_info : book) : book :=
  match find_td "field avg_rating" book_entry with
  | Some avg_rating_elem =>
      match find_value avg_rating_elem with
      | Some avg_rating_value =>
          let avg_rating_text := get_text avg_rating_value in
          if has_value avg_rating_text
          then match py_float avg_rating_text with
               | Some f => <["avg_rating" := VFloat f]> book_info
               | None => book_info
               end
          else book_info
      | None => book_info
      end
  | None => book_info
  end.

Definition extract_pages (book_entry : node) (book_info : book) : result book :=
  match find_td "field num_pages" book_entry with
  | Some pages_elem =>
      match find_value pages_elem with
      | Some pages_value =>
          let pages_text := get_text pages_value in
          if has_value pages_text
          then match re_search_digits pages_text with
               | Some digits =>
                   pages ← py_int digits;
                   mret (<["pages" := VInt pages]> book_info)
               | None => mret book_info
               end
          else mret book_info
      | None => mret book_info
      end
  | None => mret book_info
  end.

(** The statements under [try] in [_extract_book_info], up to the [return]:
    the fields in the order the method fills them in.  The first step that
    raises ends them. *)
Definition build_book_info (book_entry : node) : result book :=
  let book_info : book := ∅ in
  book_info ← extract_title book_entry book_info;
  book_info ← extract_author book_entry book_info;
  let book_info := extract_isbn book_entry book_info in
  let book_info := extract_publish_date book_entry book_info in
  let book_info := extract_rating book_entry book_info in
  let book_info := extract_avg_rating book_entry book_info in
  extract_pages book_entry book_info.

(** [_extract_book_info], the value it returns:
    [book_info if book_info.get('title') else None] at the end of the [try]
    block, [None] from [except Exception]. *)
Definition _extract_book_info (book_entry : node) : option book :=
  match build_book_info book_entry with
  | Returned book_info =>
      if truthy (book_info !! "title") then Some book_info else None
  | Raised _ => None
  end.

(** [_extract_book_info], the lines it prints: nothing, or one line from
    [except Exception as e].  The method has no other effect, so that its
    callers print these lines and use the value above. *)
Definition _extract_book_info_prints (book_entry : node) : list string :=
  match build_book_info book_entry with
  | Returned _ => []
  | Raised e => ["Error extracting book info: " +:+ e]
  end.

(** ** Console, files and network *)

(** What a file holds: text, or the rows handed to a [csv] writer, cell by
    cell (how the writer renders a cell as text is not part of the model). *)
Inductive file : Type :=
| TextFile (text : string)
| CsvFile (rows : list (list value)).

Record world : Type := World {
  stdout : list string;          (* lines printed so far *)
  files : gmap string file;      (* files written so far *)
  requests : list string;        (* URLs requested so far *)
  sleeps : list Z                (* pauses taken so far *)
}.

Definition io (A : Type) : Type := world -> A * world.

#[global] Instance io_ret : MRet io := fun A x w => (x, w).
#[global] Instance io_bind : MBind io :=
  fun A B f m w => let '(x, w') := m w in f x w'.

Definition print (line : string) : io unit := fun w =>
  (tt, {| stdout := stdout w ++ [line]; files := files w;
          requests := requests w; sleeps := sleeps w |}).

(** One [print] after another. *)
Definition print_lines (lines : list string) : io unit :=
  foldr (fun line rest => print line;; rest) (mret tt) lines.

(** [with open(name, "w") as f: f.write(text)] *)
Definition write_file (name : string) (f : file) : io unit := fun w =>
  (tt, {| stdout := stdout w; files := <[name := f]> (files w);
          requests := requests w; sleeps := sleeps w |}).

(** [time.sleep(seconds)] *)
Definition sleep (seconds : Z) : io unit := fun w =>
  (tt, {| stdout := stdout w; files := files w;
          requests := requests w; sleeps := sleeps w ++ [seconds] |}).

(** What [session.get(url)] does: it raises a [RequestException] with a
    message, or returns a response with a status code, a reason phrase and a
    body, here already parsed. *)
Inductive reply : Type :=
| Failure (message : string)
| Response (status_code : Z) (reason : string) (content : soup).

(** The site: its answer to a request, given the requests made before. *)
Variable server : list string -> string -> reply.

Definition session_get (url : string) : io reply := fun w =>
  (server (requests w) url,
   {| stdout := stdout w; files := files w;
      requests := requests w ++ [url]; sleeps := sleeps w |}).

(** [response.raise_for_status()]: the [HTTPError] message, if it raises. *)
Definition raise_for_status (status_code : Z) (reason url : string) : option string :=
  if (400 <=? status_code) && (status_code <? 500)
  then Some (pretty status_code +:+ " Client Error: " +:+ reason +:+ " for url: " +:+ url)
  else if (500 <=? status_code) && (status_code <? 600)
  then Some (pretty status_code +:+ " Server Error: " +:+ reason +:+ " for url: " +:+ url)
  else None.

(** The three statements under [try]: [session.get], [raise_for_status],
    [BeautifulSoup(response.content, 'html.parser')].  [inl e] stands for
    [requests.RequestException] raised with text [e]. *)
Definition fetch (url : string) : io (string + soup) :=
  r ← session_get url;
  match r with
  | Failure e => mret (inl e)
  | Response status_code reason content =>
      match raise_for_status status_code reason url with
      | Some e => mret (inl e)
      | None => mret (inr content)
      end
  end.

(** ** URLs *)

Definition get_profile_url (username : string) : string :=
  base_url +:+ "/user/show/" +:+ username.

Definition get_books_url (username : string) : string :=
  base_url +:+ "/user/show/" +:+ username +:+ "/books".

Definition get_read_books_url (username : string) (page : Z) : string :=
  base_url +:+ "/review/list/" +:+ username +:+ "?shelf=read&page=" +:+ pretty page.

Definition get_currently_reading_url (username : string) (page : Z) : string :=
  base_url +:+ "/review/list/" +:+ username +:+ "?shelf=currently-reading&page="
  +:+ pretty page.

(** ** Profile *)

Definition scrape_profile (username : string) : io (gmap string string) :=
  let profile_url := get_profile_url username in
  r ← fetch profile_url;
  match r with
  | inr soup =>
      let profile_info : gmap string string := ∅ in
      let profile_info :=
        match find "h1" (class_matches (class_is "userProfileName")) soup with
        | Some name_elem => <["display_name" := get_text name_elem]> profile_info
        | None => profile_info
        end in
      let profile_info :=
        match find "span" (class_matches (class_is "userLocation")) soup with
        | Some location_elem => <["location" := get_text location_elem]> profile_info
        | None => profile_info
        end in
      let profile_info :=
        match find "span" (fun n => match tag_string n with
                                    | Some s => contains "Member since" s
                                    | None => false
                                    end) soup with
        | Some join_elem =>
            let join_text := get_text join_elem in
            <["member_since" := strip (remove_all "Member since" join_text)]> profile_info
        | None => profile_info
        end in
      mret profile_info
  | inl e =>
      print ("Error scraping profile: " +:+ e);;
      mret ∅
  end.

(** ** Entry locator *)

(** [class_=re.compile(r'book|item|entry')] *)
Definition re_book_item_entry (c : string) : bool :=
  contains "book" c || contains "item" c || contains "entry" c.

(** [elem.find('a', href=re.compile(r'/book/show/'))], as a test. *)
Definition has_book_link (n : node) : bool :=
  bool_decide (is_Some (find "a" href_is_book n)).

(** Method 1: table rows with class [bookalike]. *)
Definition method1 (page : soup) : list node :=
  find_all "tr" (class_matches (class_is "bookalike")) page.

(** Method 2: table rows that contain a link to a book. *)
Definition method2 (page : soup) : list node :=
  List.filter has_book_link (find_all "tr" any_tag page).

(** Method 3: [div]s with a book-like class that contain a link to a book. *)
Definition method3 (page : soup) : list node :=
  List.filter has_book_link (find_all "div" (class_matches re_book_item_entry) page).

Definition is_nil {A} (l : list A) : bool :=
  match l with [] => true | _ => false end.

Definition locate_entries (page : soup) : io (list node) :=
  let book_entries := method1 page in
  book_entries ←
    (if is_nil book_entries
     then print "No 'bookalike' rows found, trying alternative selectors...";;
          mret (book_entries ++ method2 page)
     else mret book_entries);
  book_entries ←
    (if is_nil book_entries
     then print "No table rows found, trying div-based layout...";;
          mret (book_entries ++ method3 page)
     else mret book_entries);
  mret book_entries.

(** ** Shelves *)

(** [scrape_read_books] and [scrape_currently_reading] are the same loop up
    to the URL, the shelf tag, the name of the debug file and the wording of
    the console lines; [shelf] selects between the two. *)
Inductive shelf : Type := Read | CurrentlyReading.

Definition shelf_url (sh : shelf) : string -> Z -> string :=
  match sh with
  | Read => get_read_books_url
  | CurrentlyReading => get_currently_reading_url
  end.

Definition shelf_tag (sh : shelf) : string :=
  match sh with Read => "read" | CurrentlyReading => "currently-reading" end.

Definition shelf_words (sh : shelf) : string :=
  match sh with Read => "" | CurrentlyReading => "currently reading " end.

Definition shelf_debug_file (sh : shelf) (username : string) : string :=
  match sh with
  | Read => "debug_page_" +:+ username +:+ ".html"
  | CurrentlyReading => "debug_currently_reading_" +:+ username +:+ ".html"
  end.

Definition default_max_pages (sh : shelf) : Z :=
  match sh with Read => 50 | CurrentlyReading => 10 end.

(** [len(d) != 0] for the optional dictionary [_extract_book_info] returns. *)
Definition kept (book_info : option book) : bool :=
  match book_info with
  | Some b => negb (size b =? 0)%nat
  | None => false
  end.

(** The [for entry in book_entries] loop: the list [page_books] it builds,
    and the lines printed while it runs, which are those of the calls of
    [_extract_book_info], entry after entry. *)
Definition extract_page_books (sh : shelf) (book_entries : list node) : list book :=
  omap (fun entry =>
          let book_info := _extract_book_info entry in
          if kept book_info
          then (fun b : book => <["shelf" := VStr (shelf_tag sh)]> b) <$> book_info
          else None) book_entries.

Definition extract_page_books_prints (book_entries : list node) : list string :=
  flat_map _extract_book_info_prints book_entries.

(** The lines printed when no entry was located. *)
Definition report_no_entries (sh : shelf) (page_number : Z) (page : soup) : io unit :=
  print ("No " +:+ shelf_words sh +:+ "book entries found on page " +:+ pretty page_number);;
  print "Debug: Looking for any links to books...";;
  let book_links := find_all "a" href_is_book page in
  print ("Found " +:+ pretty (length book_links) +:+ " book links on page");;
  if is_nil book_links then mret tt
  else
    print "First few book links:";;
    foldr (fun '(i, link) rest =>
             print ("  " +:+ pretty (i + 1)%nat +:+ ". " +:+ href_or_empty link
                    +:+ " - " +:+ get_text link);; rest)
          (mret tt) (imap (fun i link => (i, link)) (take 3 book_links)).

(** The [try] block from the debug dump on, for a page fetched and parsed:
    the books to append to [books], and whether the loop goes on to the next
    page ([false] is [break]). *)
Definition scrape_fetched (sh : shelf) (username : string) (page_number : Z)
    (page : soup) : io (list book * bool) :=
  (if bool_decide (page_number = 1)
   then write_file (shelf_debug_file sh username) (TextFile (prettify page));;
        print ("Saved debug HTML to " +:+ shelf_debug_file sh username)
   else mret tt);;
  book_entries ← locate_entries page;
  print ("Found " +:+ pretty (length book_entries) +:+ " potential "
         +:+ shelf_words sh +:+ "book entries");;
  if is_nil book_entries
  then report_no_entries sh page_number page;; mret ([], false)
  else
    print_lines (extract_page_books_prints book_entries);;
    let page_books := extract_page_books sh book_entries in
    if is_nil page_books
    then
      print ("No " +:+ shelf_words sh +:+ "books extracted from page "
             +:+ pretty page_number);;
      match book_entries with
      | first :: _ =>
          print "Debug: First entry HTML structure:";;
          print (String.substring 0 500 (prettify first))
      | [] => mret tt
      end;;
      mret ([], false)
    else
      print ("Found " +:+ pretty (length page_books) +:+ " " +:+ shelf_words sh
             +:+ "books on page " +:+ pretty page_number);;
      match find "a" (class_matches (class_is "next_page")) page with
      | None => print "No next page found";; mret (page_books, false)
      | Some _ => mret (page_books, true)
      end.

(** One turn of the [while] loop; a [RequestException] ends it. *)
Definition scrape_page (sh : shelf) (username : string) (page_number : Z)
  : io (list book * bool) :=
  print ("Scraping " +:+ shelf_words sh +:+ "page " +:+ pretty page_number +:+ "...");;
  r ← fetch (shelf_url sh username page_number);
  match r with
  | inl e =>
      print ("Error scraping " +:+ shelf_words sh +:+ "page " +:+ pretty page_number
             +:+ ": " +:+ e);;
      mret ([], false)
  | inr page => scrape_fetched sh username page_number page
  end.

(** The [while page <= max_pages] loop. *)
Equations? pager (sh : shelf) (username : string) (max_pages page : Z)
  (books : list book) (w : world) : list book * world
  by wf (Z.to_nat (max_pages + 1 - page)) lt :=
pager sh username max_pages page books w with decide (page <= max_pages) := {
  | right _ => (books, w)
  | left _ with scrape_page sh username page w := {
      | ((page_books, true), w') =>
          pager sh username max_pages (page + 1) (books ++ page_books)
                (snd (sleep 1 w'))
      | ((page_books, false), w') => (books ++ page_books, w') } }.
Proof. lia. Qed.

Definition scrape_shelf (sh : shelf) (username : string) (max_pages : Z)
  : io (list book) :=
  print ("Scraping " +:+ match sh with Read => "read" | CurrentlyReading => "currently reading" end
         +:+ " books for user: " +:+ username);;
  books ← pager sh username max_pages 1 [];
  print ("Total " +:+ shelf_words sh +:+ "books scraped: " +:+ pretty (length books));;
  mret books.

Definition scrape_read_books : string -> Z -> io (list book) := scrape_shelf Read.

Definition scrape_currently_reading : string -> Z -> io (list book) :=
  scrape_shelf CurrentlyReading.

(** ** Export *)

Definition fieldnames : list string :=
  ["title"; "author"; "publish_date"; "isbn"; "rating"; "avg_rating"; "pages";
   "book_url"; "author_url"; "shelf"].

(** [{field: book.get(field, '') for field in fieldnames}], in column order. *)
Definition csv_row (b : book) : list value :=
  (fun field => default (VStr "") (b !! field)) <$> fieldnames.

Definition save_to_csv (books : list book) (filename : string) : io unit :=
  if is_nil books
  then print "No books to save"
  else
    write_file filename (CsvFile ((VStr <$> fieldnames) :: (csv_row <$> books)));;
    print ("Books saved to " +:+ filename).

(** ** Summary *)

Definition newline : string := String "010"%char EmptyString.

Fixpoint repeat_string (s : string) (n : nat) : string :=
  match n with O => EmptyString | S n' => s +:+ repeat_string s n' end.

Definition rule : string := repeat_string "=" 80.

(** [str(v)] *)
Definition str (v : value) : string :=
  match v with
  | VStr s => s
  | VInt z => pretty z
  | VFloat f => float_str f
  end.

(** [int(v)] under [except ValueError]: the year, or [None] when [int]
    raises and the book is skipped. *)
Definition year_of (v : value) : option Z :=
  match v with
  | VStr s => match py_int s with Returned year => Some year | Raised _ => None end
  | VInt z => Some z
  | VFloat f => float_int f
  end.

(** The loop that fills [decades]. *)
Definition count_decades (books : list book) : gmap Z Z :=
  foldl (fun (decades : gmap Z Z) b =>
           match b !! "publish_date" with
           | Some v =>
               if truthy (Some v)
               then match year_of v with
                    | Some year =>
                        let decade := year / 10 * 10 in
                        <[decade := default 0 (decades !! decade) + 1]> decades
                    | None => decades
                    end
               else decades
           | None => decades
           end) ∅ books.

(** The text under [key] when [book.get(key)] is true.  The extractor binds
    ["author"] to text only, and the author count below follows the code on
    such dictionaries. *)
Definition get_text_field (b : book) (key : string) : option string :=
  match b !! key with
  | Some (VStr s) => if truthy (Some (VStr s)) then Some s else None
  | _ => None
  end.

(** [authors[a] = authors.get(a, 0) + 1] on a dictionary that keeps its keys
    in the order they were first inserted. *)
Fixpoint count_author (a : string) (authors : list (string * Z)) : list (string * Z) :=
  match authors with
  | [] => [(a, 1)]
  | (k, n) :: rest =>
      if bool_decide (k = a) then (k, n + 1) :: rest
      else (k, n) :: count_author a rest
  end.

(** The loop that fills [authors], and [authors.items()] after it. *)
Definition count_authors (books : list book) : list (string * Z) :=
  foldl (fun authors b =>
           match get_text_field b "author" with
           | Some a => count_author a authors
           | None => authors
           end) [] books.

(** [sorted(items, key=lambda x: x[1], reverse=True)]: a stable sort, larger
    counts first, items with equal counts left in the order they came in. *)
Fixpoint insert_by_count (x : string * Z) (l : list (string * Z)) : list (string * Z) :=
  match l with
  | [] => [x]
  | y :: l' => if x.2 <? y.2 then y :: insert_by_count x l' else x :: l
  end.

Definition sorted_by_count (items : list (string * Z)) : list (string * Z) :=
  foldr insert_by_count [] items.

(** [sorted_authors] *)
Definition top_authors (books : list book) : list (string * Z) :=
  take 10 (sorted_by_count (count_authors books)).

Definition print_books_summary (books : list book) : io unit :=
  if is_nil books
  then print "No books found"
  else
    print (newline +:+ rule);;
    print "BOOKS SUMMARY";;
    print rule;;
    print ("Total books: " +:+ pretty (length books));;
    let decades := count_decades books in
    (if bool_decide (decades = ∅) then mret tt
     else
       print (newline +:+ "Books by decade:");;
       print_lines
         ((fun decade => "  " +:+ pretty decade +:+ "s: "
                         +:+ pretty (default 0 (decades !! decade)) +:+ " books")
          <$> merge_sort Z.le (elements (dom decades))));;
    let authors := count_authors books in
    (if is_nil authors then mret tt
     else
       print (newline +:+ "Top authors:");;
       print_lines
         ((fun '(author, count) => "  " +:+ author +:+ ": " +:+ pretty count +:+ " books")
          <$> top_authors books));;
    print (newline +:+ rule).

(** ** The program *)

(** [book.get(key, 'Unknown')] inside an f-string. *)
Definition get_or_unknown (b : book) (key : string) : string :=
  str (default (VStr "Unknown") (b !! key)).

(** The lines [Published:] and [Rating:] of a listed book, and the blank
    line after them. *)
Definition print_details (b : book) : io unit :=
  (if truthy (b !! "publish_date")
   then print ("   Published: " +:+ get_or_unknown b "publish_date")
   else mret tt);;
  (if truthy (b !! "rating")
   then print ("   Rating: " +:+ get_or_unknown b "rating")
   else mret tt);;
  print "".

Definition print_listing (with_shelf : bool) (books : list book) : io unit :=
  foldr (fun '(i, b) rest =>
           let shelf_info :=
             if with_shelf && truthy (b !! "shelf")
             then " [" +:+ str (default (VStr "read") (b !! "shelf")) +:+ "]"
             else "" in
           print (pretty (i + 1)%nat +:+ ". " +:+ get_or_unknown b "title" +:+ " by "
                  +:+ get_or_unknown b "author" +:+ shelf_info);;
           print_details b;;
           rest)
        (mret tt) (imap (fun i b => (i, b)) books).

(** [main], with [sys.argv] as argument and the exit status as result. *)
Definition main (argv : list string) : io Z :=
  match argv with
  | [_; username] =>
      print ("Starting Goodreads scraper for user: " +:+ username);;
      print (repeat_string "-" 50);;
      profile_info ← scrape_profile username;
      (if bool_decide (profile_info = ∅) then mret tt
       else
         print "Profile information:";;
         print_lines
           (omap (fun key => (fun v => "  " +:+ key +:+ ": " +:+ v) <$> profile_info !! key)
                 ["display_name"; "location"; "member_since"]);;
         print "");;
      read_books ← scrape_read_books username (default_max_pages Read);
      currently_reading_books ←
        scrape_currently_reading username (default_max_pages CurrentlyReading);
      let all_books := read_books ++ currently_reading_books in
      (if is_nil all_books
       then
         print "No books found. Please check:";;
         print "1. The username is correct";;
         print "2. The profile is public";;
         print "3. The user has marked books as read or currently reading";;
         print (newline +:+ "Debug information has been saved to debug_page_{username}.html")
       else
         (if is_nil read_books then mret tt
          else
            print (newline +:+ rule);;
            print "READ BOOKS SUMMARY";;
            print rule;;
            print_books_summary read_books);;
         (if is_nil currently_reading_books then mret tt
          else
            print (newline +:+ rule);;
            print "CURRENTLY READING SUMMARY";;
            print rule;;
            print ("Total currently reading books: "
                   +:+ pretty (length currently_reading_books));;
            print (newline +:+ "Currently reading books:");;
            print_listing false currently_reading_books);;
         save_to_csv all_books (username +:+ "_goodreads_books.csv");;
         print (newline +:+ rule);;
         print "COMBINED SUMMARY";;
         print rule;;
         print ("Total books: " +:+ pretty (length all_books) +:+ " ("
                +:+ pretty (length read_books) +:+ " read, "
                +:+ pretty (length currently_reading_books) +:+ " currently reading)");;
         print (newline +:+ "First 5 books preview:");;
         print (repeat_string "-" 50);;
         print_listing true (take 5 all_books);;
         (if (5 <? length all_books)%nat
          then print ("... and " +:+ pretty (length all_books - 5)%nat +:+ " more books")
          else mret tt));;
      mret 0
  | _ =>
      print "Usage: python goodreads_scraper.py <goodreads_username>";;
      print "Example: python goodreads_scraper.py johndoe";;
      mret 1
  end.

End Scraper.

(** ** Vocabulary of the statements *)

Section Vocabulary.

Context {lib : Library}.

(** The dictionary [_extract_book_info] has built when it reaches its
    [return]; the empty one when it does not reach it. *)
Definition book_fields (book_entry : node) : book :=
  match build_book_info book_entry with
  | Returned book_info => book_info
  | Raised _ => ∅
  end.

(** A step of [_extract_book_info] raises on the row: [urljoin] on the
    target of the title link or of the author link, or [int] on the digits
    of the page count. *)
Definition raises (book_entry : node) : Prop :=
  (∃ title_elem title_link e,
     find_td "field title" book_entry = Some title_elem ∧
     find_a title_elem = Some title_link ∧
     urljoin base_url (href_or_empty title_link) = Raised e) ∨
  (∃ author_elem author_link e,
     find_td "field author" book_entry = Some author_elem ∧
     find_a author_elem = Some author_link ∧
     urljoin base_url (href_or_empty author_link) = Raised e) ∨
  (∃ pages_elem pages_value digits e,
     find_td "field num_pages" book_entry = Some pages_elem ∧
     find_value pages_elem = Some pages_value ∧
     has_value (get_text pages_value) = true ∧
     re_search_digits (get_text pages_value) = Some digits ∧
     py_int digits = Raised e).

(** The stripped text of the value sub-element of a field cell of a row. *)
Definition value_text (field : string) (book_entry : node) : option string :=
  cell ← find_td field book_entry;
  v ← find_value cell;
  Some (get_text v).

(** The star sub-elements of the value sub-element of the rating cell. *)
Definition star_elements (book_entry : node) : list node :=
  match find_td "field rating" book_entry with
  | Some cell =>
      match find_value cell with
      | Some v => find_all "span" (class_matches (class_is "staticStar")) v
      | None => []
      end
  | None => []
  end.

(** Those of them that are filled. *)
Definition filled_star_elements (book_entry : node) : list node :=
  List.filter (fun star => bool_decide ("p10" ∈ get_class star))
              (star_elements book_entry).

(** The entries the locator settles on. *)
Definition located (page : soup) : list node :=
  match method1 page with
  | [] => match method2 page with
          | [] => method3 page
          | rows => rows
          end
  | rows => rows
  end.

(** The page behind a reply, when fetching it raises nothing. *)
Definition page_of (url : string) (r : reply) : option soup :=
  match r with
  | Failure _ => None
  | Response status_code reason content =>
      match raise_for_status status_code reason url with
      | Some _ => None
      | None => Some content
      end
  end.

(** A reply that makes the three statements under [try] raise: the request
    itself failed, or the status is a client or server error. *)
Definition failed (r : reply) : Prop :=
  match r with
  | Failure _ => True
  | Response status_code _ _ => 400 <= status_code < 600
  end.

(** The records a reply contributes to a shelf. *)
Definition records_of (sh : shelf) (url : string) (r : reply) : list book :=
  match page_of url r with
  | Some page => extract_page_books sh (located page)
  | None => []
  end.

(** A reply after which the loop asks for the next page: it was fetched,
    records were extracted from it and it has a next-page link. *)
Definition goes_on (sh : shelf) (url : string) (r : reply) : bool :=
  match page_of url r with
  | Some page =>
      negb (is_nil (extract_page_books sh (located page)))
      && bool_decide (is_Some (find "a" (class_matches (class_is "next_page")) page))
  | None => false
  end.

(** The [i]-th URL a shelf loop asks for when it starts at page [first], the
    first [k] of them, and the site's reply to the [i]-th when the loop
    started after the requests [history]. *)
Definition nth_url (sh : shelf) (username : string) (first : Z) (i : nat) : string :=
  shelf_url sh username (first + Z.of_nat i).

Definition urls (sh : shelf) (username : string) (first : Z) (k : nat) : list string :=
  nth_url sh username first <$> seq 0 k.

Definition nth_reply (server : list string -> string -> reply) (sh : shelf)
    (username : string) (history : list string) (first : Z) (i : nat) : reply :=
  server (history ++ urls sh username first i) (nth_url sh username first i).

(** An [io] action that returns [a], asks the site nothing and does not
    pause. *)
Definition returns {A} (m : io A) (a : A) : Prop :=
  ∀ w, (m w).1 = a ∧ requests (m w).2 = requests w ∧ sleeps (m w).2 = sleeps w.

(** The decade the summary counts a book under, if it counts it: the
    book has a non-empty [publish_date] that [int] accepts. *)
Definition decade_of (b : book) : option Z :=
  v ← b !! "publish_date";
  if truthy (Some v)
  then year ← year_of v; Some (year / 10 * 10)
  else None.

(** The number of books of [books] counted under decade [d]. *)
Definition books_in_decade (d : Z) (books : list book) : Z :=
  Z.of_nat (length (List.filter
    (fun b => bool_decide (decade_of b = Some d)) books)).

(** The number of books of [books] counted for some author. *)
Definition books_with_author (books : list book) : Z :=
  Z.of_nat (length (List.filter
    (fun b => bool_decide (is_Some (get_text_field b "author"))) books)).

(** An [io] action whose effect on the files is [g]. *)
Definition writes {A} (m : io A) (g : gmap string file -> gmap string file) : Prop :=
  ∀ w, files (m w).2 = g (files w).

(** An [io] action that writes no file. *)
Definition keeps_files {A} (m : io A) : Prop :=
  ∀ w, files (m w).2 = files w.

(** The position of the first book of [books] counted for author [a]. *)
Fixpoint first_seen (a : string) (books : list book) : option nat :=
  match books with
  | [] => None
  | b :: books' =>
      if bool_decide (get_text_field b "author" = Some a) then Some O
      else S <$> first_seen a books'
  end.

(** The number of books of [books] counted for author [a]. *)
Definition books_by (a : string) (books : list book) : Z :=
  Z.of_nat (length (List.filter
    (fun b => bool_decide (get_text_field b "author" = Some a)) books)).

End Vocabulary.

(** [y] is a run of four digits of [t] starting at offset [i]. *)
Definition year_at (t : string) (i : nat) (y : string) : Prop :=
  String.substring i 4 t = y ∧ String.length y = 4%nat ∧
  forallb is_digit (list_ascii_of_string y) = true.

(** [y] is the first run of four digits of [t]. *)
Definition first_year (t y : string) : Prop :=
  ∃ i, year_at t i y ∧ ∀ j y', (j < i)%nat → ¬ year_at t j y'.

(** [a] comes before [b] in [l]. *)
Definition before {A} (l : list A) (a b : A) : Prop :=
  ∃ l1 l2, l = l1 ++ l2 ∧ a ∈ l1 ∧ b ∈ l2.


(** Tests on text used in the further statements. *)
Definition starts_with_space (s : string) : bool :=
  match s with String c _ => py_isspace c | EmptyString => false end.

Fixpoint ends_with_space (s : string) : bool :=
  match s with
  | EmptyString => false
  | String c EmptyString => py_isspace c
  | String _ s' => ends_with_space s'
  end.

Definition starts_with_digit (s : string) : bool :=
  match s with String c _ => is_digit c | EmptyString => false end.

Definition has_digit (s : string) : bool :=
  existsb is_digit (list_ascii_of_string s).

Definition all_digits (s : string) : bool :=
  forallb is_digit (list_ascii_of_string s).

(** [d] is the first run of digits of [t], taken as long as it goes. *)
Definition first_digits (t d : string) : Prop :=
  ∃ pre post,
    t = pre +:+ d +:+ post ∧ has_digit pre = false ∧
    d ≠ "" ∧ all_digits d = true ∧ starts_with_digit post = false.

(** ** Sample data *)

(** A stand-in for the library: relative references are appended to the
    base, a reference with an opening square bracket and no closing one is
    refused as [urljoin] refuses it, floats are kept as their text, and the
    limit on the digits of a numeral is the interpreter's default. *)
Definition sample_library : Library := {|
  float := string;
  py_float := fun s => if forallb (fun c => is_digit c || bool_decide (c = "."%char))
                                  (list_ascii_of_string s)
                       then Some s else None;
  float_bool := fun s => negb (bool_decide (s = "0.0"));
  float_str := fun s => s;
  float_int := fun s => int_of_digits <$> re_search_digits s;
  urljoin := fun base url =>
               if contains "[" url && negb (contains "]" url)
               then Raised "Invalid IPv6 URL"
               else Returned match url with
                             | EmptyString => base
                             | String "/" _ => base +:+ url
                             | _ => url
                             end;
  prettify := fun n => get_text n;
  repr := fun s => "'" +:+ s +:+ "'";
  int_max_str_digits := 4300
|}.

Definition text (s : string) : node := NavigableString s.

Definition td (classes : list string) (cs : list node) : node := Tag "td" classes None cs.

Definition div_value (cs : list node) : node := Tag "div" ["value"] None cs.

Definition link (target label : string) : node := Tag "a" [] (Some target) [text label].

Definition star (filled : bool) : node :=
  Tag "span" (if filled then ["staticStar"; "p10"] else ["staticStar"; "p0"]) None [].

Definition title_cell (target label : string) : node :=
  td ["field"; "title"] [div_value [link target label]].

Definition rating_cell (stars : list bool) : node :=
  td ["field"; "rating"] [div_value (star <$> stars)].

Definition date_cell (s : string) : node :=
  td ["field"; "date_pub"] [div_value [text s]].

(** A row as the shelf table has them. *)
Definition ulysses : node :=
  Tag "tr" ["bookalike"; "review"] None
    [ title_cell "/book/show/338798" "  Ulysses ";
      td ["field"; "author"] [div_value [link "/author/show/5144" "Joyce, James"]];
      td ["field"; "isbn"] [div_value [text " None "]];
      date_cell " Mar 26, 1920 ";
      rating_cell [true; true; true; false; false];
      td ["field"; "avg_rating"] [div_value [text "3.75"]];
      td ["field"; "num_pages"] [div_value [text "783 pp"]] ].

(** A row whose title link has a target that [urljoin] refuses. *)
Definition bad_link : node :=
  Tag "tr" ["bookalike"] None [ title_cell "http://[bad" "Ulysses" ].

(** A row with every cell but the title link. *)
Definition untitled : node :=
  Tag "tr" ["bookalike"] None
    [ td ["field"; "title"] [div_value [text "Ulysses"]];
      td ["field"; "author"] [div_value [link "/author/show/5144" "Joyce, James"]];
      date_cell "1922";
      rating_cell [true; false; false; false; false] ].

Definition dateless : node :=
  Tag "tr" ["bookalike"] None
    [ title_cell "/book/show/1" "Beowulf"; date_cell " Unknown ";
      rating_cell [false; false; false; false; false] ].

Definition no_date : node :=
  Tag "tr" ["bookalike"] None [ title_cell "/book/show/1" "Beowulf"; date_cell " None " ].

(** A row whose rating cell holds six filled stars. *)
Definition six_stars : node :=
  Tag "tr" ["bookalike"] None
    [ title_cell "/book/show/2" "Dubliners";
      rating_cell [true; true; true; true; true; true] ].

(** Pages.  A row without the marker class, a page of three such rows next
    to a [div] the third method would pick, and shelf pages with or without
    a next-page link. *)
Definition plain_row (target label : string) : node :=
  Tag "tr" [] None [title_cell target label].

Definition three_plain_rows : soup :=
  Tag "[document]" [] None
    [ Tag "table" [] None
        [ plain_row "/book/show/1" "Dubliners";
          plain_row "/book/show/2" "Exiles";
          plain_row "/book/show/3" "Ulysses" ];
      Tag "div" ["bookList"] None [link "/book/show/9" "Finnegans Wake"] ].

Definition next_page_link : node :=
  Tag "a" ["next_page"] (Some "/review/list/bob?page=2") [text "next"].

Definition shelf_page (rows : list node) (more : bool) : soup :=
  Tag "[document]" [] None
    (Tag "table" [] None rows :: if more then [next_page_link] else []).

Definition empty_world {lib : Library} : world := World [] ∅ [] [].

(** Sites.  One whose every page holds a book and a next-page link; one
    whose first page holds only a row without a title link, and a next-page
    link; one that answers once and then reports an error; one that refuses
    the first request; one that answers every request with status 300. *)
Definition endless_site : list string -> string -> reply :=
  fun _ _ => Response 200 "OK" (shelf_page [ulysses] true).

Definition blank_page_site : list string -> string -> reply :=
  fun history _ =>
    match history with
    | [] => Response 200 "OK" (shelf_page [untitled] true)
    | _ => Response 200 "OK" (shelf_page [ulysses] true)
    end.

Definition failing_site : list string -> string -> reply :=
  fun history _ =>
    match history with
    | [] => Response 200 "OK" (shelf_page [ulysses] true)
    | _ => Response 503 "Service Unavailable" (shelf_page [] false)
    end.

Definition no_profile_site : list string -> string -> reply :=
  fun history _ =>
    match history with
    | [] => Failure "connection refused"
    | _ => Response 200 "OK" (shelf_page [ulysses] false)
    end.

(** A profile page. *)
Definition profile_page : soup :=
  Tag "[document]" [] None
    [ Tag "h1" ["userProfileName"] None [text " Bob "];
      Tag "span" [] None [text "Member since May 2010"] ].

Definition profile_site : list string -> string -> reply :=
  fun _ _ => Response 200 "OK" profile_page.

(** A site whose every page holds one book and no next-page link. *)
Definition single_page_site : list string -> string -> reply :=
  fun _ _ => Response 200 "OK" (shelf_page [ulysses] false).

Definition multiple_choices_site : list string -> string -> reply :=
  fun _ _ => Response 300 "Multiple Choices" (shelf_page [ulysses] true).

(** Books by author, for the ranking. *)
Definition book_by {lib : Library} (title author : string) : book :=
  <["author" := VStr author]> (<["title" := VStr title]> ∅).

Definition four_books {lib : Library} : list book :=
  [ book_by "Dubliners" "Joyce"; book_by "Molloy" "Beckett";
    book_by "Ulysses" "Joyce"; book_by "Watt" "Beckett" ].

(** Rows with a page count, with an author link without text, and with
    nothing but a title. *)
Definition long_book : node :=
  Tag "tr" ["bookalike"] None
    [ title_cell "/book/show/3" "Clarissa";
      td ["field"; "isbn"] [div_value [text " 0140432159 "]];
      td ["field"; "num_pages"] [div_value [text " 1,534 pp "]] ].

Definition anonymous : node :=
  Tag "tr" ["bookalike"] None
    [ title_cell "/book/show/4" "Beowulf";
      td ["field"; "author"] [div_value [link "/author/show/0" "  "]] ].

(** ** Proof steps *)

(** Unfold the sequencing of [io] actions. *)
Ltac unfold_io := unfold mbind, mret, io_bind, io_ret.

(** ** The field extractor *)

(** Unfold the sequencing of calls that may raise. *)
Ltac unfold_result := unfold mbind, mret, result_bind, result_ret.

Section ExtractorFacts.

Context {lib : Library}.

Lemma extract_book_info_Some book_entry b :
  _extract_book_info book_entry = Some b ->
  build_book_info book_entry = Returned b ∧
  b = book_fields book_entry ∧ truthy (b !! "title") = true.
Proof.
  unfold _extract_book_info, book_fields.
  destruct (build_book_info book_entry) as [e|book_info]; [done|].
  destruct (truthy _) eqn:E; [|discriminate].
  intros [= <-]. done.
Qed.

(** The steps that may raise, when they return. *)
Lemma extract_title_Returned e (m m' : book) :
  extract_title e m = Returned m' ->
  match find_td "field title" e ≫= find_a with
  | Some title_link =>
      ∃ u, urljoin base_url (href_or_empty title_link) = Returned u ∧
           m' = <["book_url" := VStr u]> (<["title" := VStr (get_text title_link)]> m)
  | None => m' = m
  end.
Proof.
  unfold extract_title.
  destruct (find_td "field title" e) as [title_elem|]; simpl;
    [|by intros [= <-]].
  destruct (find_a title_elem) as [title_link|]; [|by intros [= <-]].
  unfold_result.
  destruct (urljoin base_url (href_or_empty title_link)) as [msg|u]; [done|].
  intros [= <-]. by exists u.
Qed.

Lemma extract_author_Returned e (m m' : book) :
  extract_author e m = Returned m' ->
  match find_td "field author" e ≫= find_a with
  | Some author_link =>
      ∃ u, urljoin base_url (href_or_empty author_link) = Returned u ∧
           m' = <["author_url" := VStr u]> (<["author" := VStr (get_text author_link)]> m)
  | None => m' = m
  end.
Proof.
  unfold extract_author.
  destruct (find_td "field author" e) as [author_elem|]; simpl;
    [|by intros [= <-]].
  destruct (find_a author_elem) as [author_link|]; [|by intros [= <-]].
  unfold_result.
  destruct (urljoin base_url (href_or_empty author_link)) as [msg|u]; [done|].
  intros [= <-]. by exists u.
Qed.

Lemma extract_pages_Returned e (m m' : book) :
  extract_pages e m = Returned m' ->
  match find_td "field num_pages" e ≫= find_value with
  | Some pages_value =>
      if has_value (get_text pages_value)
      then match re_search_digits (get_text pages_value) with
           | Some digits =>
               ∃ pages, py_int digits = Returned pages ∧
                        m' = <["pages" := VInt pages]> m
           | None => m' = m
           end
      else m' = m
  | None => m' = m
  end.
Proof.
  unfold extract_pages.
  destruct (find_td "field num_pages" e) as [pages_elem|]; simpl;
    [|by intros [= <-]].
  destruct (find_value pages_elem) as [pages_value|]; [|by intros [= <-]].
  destruct (has_value (get_text pages_value)); [|by intros [= <-]].
  destruct (re_search_digits (get_text pages_value)) as [digits|];
    [|by intros [= <-]].
  unfold_result.
  destruct (py_int digits) as [msg|pages]; [done|].
  intros [= <-]. by exists pages.
Qed.

(** Each step writes its own keys only. *)
Lemma extract_title_other e (m m' : book) k :
  extract_title e m = Returned m' ->
  k ≠ "title" -> k ≠ "book_url" -> m' !! k = m !! k.
Proof.
  intros H%extract_title_Returned ? ?.
  destruct (find_td "field title" e ≫= find_a); [|by subst].
  destruct H as (u & _ & ->). by rewrite !lookup_insert_ne.
Qed.

Lemma extract_author_other e (m m' : book) k :
  extract_author e m = Returned m' ->
  k ≠ "author" -> k ≠ "author_url" -> m' !! k = m !! k.
Proof.
  intros H%extract_author_Returned ? ?.
  destruct (find_td "field author" e ≫= find_a); [|by subst].
  destruct H as (u & _ & ->). by rewrite !lookup_insert_ne.
Qed.

Lemma extract_isbn_other e (m : book) k :
  k ≠ "isbn" -> extract_isbn e m !! k = m !! k.
Proof.
  intros. unfold extract_isbn. repeat case_match; rewrite ?lookup_insert_ne by congruence; done.
Qed.

Lemma extract_publish_date_other e (m : book) k :
  k ≠ "publish_date" -> extract_publish_date e m !! k = m !! k.
Proof.
  intros. unfold extract_publish_date.
  repeat case_match; rewrite ?lookup_insert_ne by congruence; done.
Qed.

Lemma extract_rating_other e (m : book) k :
  k ≠ "rating" -> extract_rating e m !! k = m !! k.
Proof.
  intros. unfold extract_rating. repeat case_match; rewrite ?lookup_insert_ne by congruence; done.
Qed.

Lemma extract_avg_rating_other e (m : book) k :
  k ≠ "avg_rating" -> extract_avg_rating e m !! k = m !! k.
Proof.
  intros. unfold extract_avg_rating.
  repeat case_match; rewrite ?lookup_insert_ne by congruence; done.
Qed.

Lemma extract_pages_other e (m m' : book) k :
  extract_pages e m = Returned m' -> k ≠ "pages" -> m' !! k = m !! k.
Proof.
  intros H%extract_pages_Returned ?.
  destruct (find_td "field num_pages" e ≫= find_value); [|by subst].
  destruct (has_value _); [|by subst].
  destruct (re_search_digits _); [|by subst].
  destruct H as (pages & _ & ->). by rewrite lookup_insert_ne.
Qed.

(** What a step writes under its own key does not depend on the dictionary
    it is given. *)
Lemma extract_isbn_own e (m : book) :
  m !! "isbn" = None -> extract_isbn e m !! "isbn" = extract_isbn e ∅ !! "isbn".
Proof.
  intros. unfold extract_isbn.
  repeat case_match; rewrite ?lookup_insert_eq, ?lookup_empty; done.
Qed.

Lemma extract_publish_date_own e (m : book) :
  m !! "publish_date" = None ->
  extract_publish_date e m !! "publish_date"
  = extract_publish_date e ∅ !! "publish_date".
Proof.
  intros. unfold extract_publish_date.
  repeat case_match; rewrite ?lookup_insert_eq, ?lookup_empty; done.
Qed.

Lemma extract_rating_own e (m : book) :
  m !! "rating" = None ->
  extract_rating e m !! "rating" = extract_rating e ∅ !! "rating".
Proof.
  intros. unfold extract_rating.
  repeat case_match; rewrite ?lookup_insert_eq, ?lookup_empty; done.
Qed.

(** The run of the [try] block, step by step. *)
Lemma build_book_info_Returned e b :
  build_book_info e = Returned b ->
  ∃ m1 m2,
    extract_title e ∅ = Returned m1 ∧
    extract_author e m1 = Returned m2 ∧
    extract_pages e
      (extract_avg_rating e (extract_rating e
        (extract_publish_date e (extract_isbn e m2)))) = Returned b.
Proof.
  unfold build_book_info. unfold_result.
  destruct (extract_title e ∅) as [msg|m1] eqn:H1; [done|].
  destruct (extract_author e m1) as [msg|m2] eqn:H2; [done|].
  intros H. by exists m1, m2.
Qed.

(** The keys of the two links are the only ones set before the isbn. *)
Lemma links_other e (m1 m2 : book) k :
  extract_title e ∅ = Returned m1 -> extract_author e m1 = Returned m2 ->
  k ≠ "title" -> k ≠ "book_url" -> k ≠ "author" -> k ≠ "author_url" ->
  m2 !! k = None.
Proof.
  intros H1 H2 ? ? ? ?.
  by rewrite (extract_author_other _ _ _ _ H2), (extract_title_other _ _ _ _ H1).
Qed.

Lemma built_title_link e b :
  build_book_info e = Returned b ->
  match find_td "field title" e ≫= find_a with
  | Some title_link =>
      ∃ u, urljoin base_url (href_or_empty title_link) = Returned u ∧
           b !! "title" = Some (VStr (get_text title_link)) ∧
           b !! "book_url" = Some (VStr u)
  | None => b !! "title" = None ∧ b !! "book_url" = None
  end.
Proof.
  intros (m1 & m2 & H1 & H2 & H3)%build_book_info_Returned.
  assert (Hk : ∀ k, k = "title" ∨ k = "book_url" -> b !! k = m1 !! k).
  { intros k Hor.
    rewrite (extract_pages_other _ _ _ _ H3), extract_avg_rating_other,
      extract_rating_other, extract_publish_date_other, extract_isbn_other,
      (extract_author_other _ _ _ _ H2) by (destruct Hor; by subst).
    done. }
  rewrite !Hk by auto.
  apply extract_title_Returned in H1.
  destruct (find_td "field title" e ≫= find_a) as [title_link|].
  - destruct H1 as (u & Hu & ->). exists u.
    by rewrite lookup_insert_ne, !lookup_insert_eq.
  - by subst.
Qed.

Lemma built_author_link e b :
  build_book_info e = Returned b ->
  match find_td "field author" e ≫= find_a with
  | Some author_link =>
      ∃ u, urljoin base_url (href_or_empty author_link) = Returned u ∧
           b !! "author" = Some (VStr (get_text author_link)) ∧
           b !! "author_url" = Some (VStr u)
  | None => b !! "author" = None ∧ b !! "author_url" = None
  end.
Proof.
  intros (m1 & m2 & H1 & H2 & H3)%build_book_info_Returned.
  assert (Hk : ∀ k, k = "author" ∨ k = "author_url" -> b !! k = m2 !! k).
  { intros k Hor.
    rewrite (extract_pages_other _ _ _ _ H3), extract_avg_rating_other,
      extract_rating_other, extract_publish_date_other, extract_isbn_other
      by (destruct Hor; by subst).
    done. }
  rewrite !Hk by auto.
  assert (Hm1 : ∀ k, k = "author" ∨ k = "author_url" -> m1 !! k = None).
  { intros k Hor.
    by rewrite (extract_title_other _ _ _ _ H1) by (destruct Hor; by subst). }
  apply extract_author_Returned in H2.
  destruct (find_td "field author" e ≫= find_a) as [author_link|].
  - destruct H2 as (u & Hu & ->). exists u.
    by rewrite lookup_insert_ne, !lookup_insert_eq.
  - subst m2. by rewrite !Hm1 by auto.
Qed.

Lemma built_isbn e b :
  build_book_info e = Returned b ->
  b !! "isbn" = extract_isbn e ∅ !! "isbn".
Proof.
  intros (m1 & m2 & H1 & H2 & H3)%build_book_info_Returned.
  rewrite (extract_pages_other _ _ _ _ H3), extract_avg_rating_other,
    extract_rating_other, extract_publish_date_other by done.
  apply extract_isbn_own. by apply (links_other e m1 m2).
Qed.

Lemma built_publish_date e b :
  build_book_info e = Returned b ->
  b !! "publish_date" = extract_publish_date e ∅ !! "publish_date".
Proof.
  intros (m1 & m2 & H1 & H2 & H3)%build_book_info_Returned.
  rewrite (extract_pages_other _ _ _ _ H3), extract_avg_rating_other,
    extract_rating_other by done.
  apply extract_publish_date_own.
  rewrite extract_isbn_other by done. by apply (links_other e m1 m2).
Qed.

Lemma built_rating e b :
  build_book_info e = Returned b ->
  b !! "rating" = extract_rating e ∅ !! "rating".
Proof.
  intros (m1 & m2 & H1 & H2 & H3)%build_book_info_Returned.
  rewrite (extract_pages_other _ _ _ _ H3), extract_avg_rating_other by done.
  apply extract_rating_own.
  rewrite extract_publish_date_other, extract_isbn_other by done.
  by apply (links_other e m1 m2).
Qed.

(** The steps that may raise, when they raise. *)
Lemma extract_title_Raised e (m : book) msg :
  extract_title e m = Raised msg ↔
  ∃ title_elem title_link,
    find_td "field title" e = Some title_elem ∧
    find_a title_elem = Some title_link ∧
    urljoin base_url (href_or_empty title_link) = Raised msg.
Proof.
  unfold extract_title. unfold_result.
  destruct (find_td "field title" e) as [title_elem|] eqn:Hc.
  2: { split; [done|]. intros (? & ? & ? & _). congruence. }
  destruct (find_a title_elem) as [title_link|] eqn:Hl.
  2: { split; [done|]. intros (? & ? & ? & ? & _). congruence. }
  destruct (urljoin base_url (href_or_empty title_link)) eqn:Hu.
  - split; [intros [= <-]; by eauto|]. intros (? & ? & ? & ? & ?). congruence.
  - split; [done|]. intros (? & ? & ? & ? & ?). congruence.
Qed.

Lemma extract_author_Raised e (m : book) msg :
  extract_author e m = Raised msg ↔
  ∃ author_elem author_link,
    find_td "field author" e = Some author_elem ∧
    find_a author_elem = Some author_link ∧
    urljoin base_url (href_or_empty author_link) = Raised msg.
Proof.
  unfold extract_author. unfold_result.
  destruct (find_td "field author" e) as [author_elem|] eqn:Hc.
  2: { split; [done|]. intros (? & ? & ? & _). congruence. }
  destruct (find_a author_elem) as [author_link|] eqn:Hl.
  2: { split; [done|]. intros (? & ? & ? & ? & _). congruence. }
  destruct (urljoin base_url (href_or_empty author_link)) eqn:Hu.
  - split; [intros [= <-]; by eauto|]. intros (? & ? & ? & ? & ?). congruence.
  - split; [done|]. intros (? & ? & ? & ? & ?). congruence.
Qed.

Lemma extract_pages_Raised e (m : book) msg :
  extract_pages e m = Raised msg ↔
  ∃ pages_elem pages_value digits,
    find_td "field num_pages" e = Some pages_elem ∧
    find_value pages_elem = Some pages_value ∧
    has_value (get_text pages_value) = true ∧
    re_search_digits (get_text pages_value) = Some digits ∧
    py_int digits = Raised msg.
Proof.
  unfold extract_pages. unfold_result.
  destruct (find_td "field num_pages" e) as [pages_elem|] eqn:Hc.
  2: { split; [done|]. intros (? & ? & ? & ? & _). congruence. }
  destruct (find_value pages_elem) as [pages_value|] eqn:Hl.
  2: { split; [done|]. intros (? & ? & ? & ? & ? & _). congruence. }
  destruct (has_value (get_text pages_value)) eqn:Hv.
  2: { split; [done|]. intros (? & ? & ? & ? & ? & ? & _). congruence. }
  destruct (re_search_digits (get_text pages_value)) as [digits|] eqn:Hd.
  2: { split; [done|]. intros (? & ? & ? & ? & ? & ? & ? & _). congruence. }
  destruct (py_int digits) eqn:Hp.
  - split; [intros [= <-]; by eauto 8|].
    intros (? & ? & ? & ? & ? & ? & ? & ?). congruence.
  - split; [done|]. intros (? & ? & ? & ? & ? & ? & ? & ?). congruence.
Qed.

(** The [try] block raises exactly on the rows on which a step raises. *)
Lemma build_book_info_Raised e :
  (∃ msg, build_book_info e = Raised msg) ↔ raises e.
Proof.
  unfold build_book_info, raises. unfold_result.
  destruct (extract_title e ∅) as [e1|m1] eqn:H1.
  { split; [|by eauto]. intros _. left.
    apply extract_title_Raised in H1 as (? & ? & ? & ? & ?). eauto 8. }
  assert (Hno1 : ¬ ∃ title_elem title_link msg,
             find_td "field title" e = Some title_elem ∧
             find_a title_elem = Some title_link ∧
             urljoin base_url (href_or_empty title_link) = Raised msg).
  { intros (c & l & msg & Hc & Hl & Hu).
    assert (extract_title e ∅ = Raised msg)
      by (apply extract_title_Raised; eauto).
    congruence. }
  destruct (extract_author e m1) as [e2|m2] eqn:H2.
  { split; [|by eauto]. intros _. right. left.
    apply extract_author_Raised in H2 as (? & ? & ? & ? & ?). eauto 8. }
  assert (Hno2 : ¬ ∃ author_elem author_link msg,
             find_td "field author" e = Some author_elem ∧
             find_a author_elem = Some author_link ∧
             urljoin base_url (href_or_empty author_link) = Raised msg).
  { intros (c & l & msg & Hc & Hl & Hu).
    assert (extract_author e m1 = Raised msg)
      by (apply extract_author_Raised; eauto).
    congruence. }
  split.
  - intros [msg (? & ? & ? & ? & ? & ? & ? & ?)%extract_pages_Raised].
    right. right. eauto 10.
  - intros [? | [? | (c & v & d & msg & Hc & Hv & Hh & Hd & Hp)]]; [done..|].
    exists msg. apply extract_pages_Raised. eauto 10.
Qed.

End ExtractorFacts.

(** The sample row, field by field, in the order of the export. *)
Example ulysses_fields :
  (fun key => book_fields (lib := sample_library) ulysses !! key) <$> fieldnames
  = [ Some (VStr "Ulysses"); Some (VStr "Joyce, James"); Some (VStr "1920"); None;
      Some (VInt 3); Some (VFloat ("3.75" : float (Library := sample_library)));
      Some (VInt 783);
      Some (VStr "https://www.goodreads.com/book/show/338798");
      Some (VStr "https://www.goodreads.com/author/show/5144"); None ].
Proof. reflexivity. Qed.

Example untitled_dropped :
  _extract_book_info (lib := sample_library) untitled = None.
Proof. reflexivity. Qed.

(** A titled row whose link [urljoin] refuses: no record, one line. *)
Example bad_link_dropped :
  _extract_book_info (lib := sample_library) bad_link = None ∧
  _extract_book_info_prints (lib := sample_library) bad_link
  = ["Error extracting book info: Invalid IPv6 URL"].
Proof. split; reflexivity. Qed.

(** C1, as the code has it. The extractor returns a record exactly when the
    first link of the row's title cell yields a non-empty stripped text and
    no step of the extraction raises.  A row without a title cell, or whose
    title cell has no link, yields no record, whatever else the row holds;
    so does a row on which a step raises, for which one line is printed. *)
Theorem extract_book_info_iff_title {lib : Library} (book_entry : node) :
  (is_Some (_extract_book_info book_entry) ↔
   (∃ title_elem title_link,
      find_td "field title" book_entry = Some title_elem ∧
      find_a title_elem = Some title_link ∧
      get_text title_link ≠ "") ∧
   ¬ raises book_entry) ∧
  (find_td "field title" book_entry = None ->
   _extract_book_info book_entry = None) ∧
  (∀ title_elem,
     find_td "field title" book_entry = Some title_elem ->
     find_a title_elem = None ->
     _extract_book_info book_entry = None) ∧
  (raises book_entry ->
   _extract_book_info book_entry = None ∧
   ∃ e, _extract_book_info_prints book_entry
        = ["Error extracting book info: " +:+ e]) ∧
  (¬ raises book_entry -> _extract_book_info_prints book_entry = []).
Proof.
  pose proof (build_book_info_Raised book_entry) as Hraised.
  pose proof (built_title_link book_entry) as Htitle.
  unfold _extract_book_info, _extract_book_info_prints.
  destruct (build_book_info book_entry) as [msg|b].
  - assert (Hr : raises book_entry) by (apply Hraised; by eexists).
    split_and!; try done.
    + split; [by intros [? [=]]|]. by intros [_ ?].
    + intros _. split; [done|]. by exists msg.
  - assert (Hr : ¬ raises book_entry) by (by intros [? [=]]%Hraised).
    specialize (Htitle b eq_refl).
    destruct (find_td "field title" book_entry) as [title_elem|] eqn:Hcell;
      simpl in Htitle.
    + destruct (find_a title_elem) as [title_link|] eqn:Hlink.
      * destruct Htitle as (u & _ & -> & _). simpl.
        case_bool_decide as Htext; simpl.
        -- split_and!; try done.
           split; [by intros [? [=]]|].
           intros [(? & ? & [= <-] & Hl & ?) _]. rewrite Hlink in Hl.
           by injection Hl as <-.
        -- split_and!; try done.
           ++ split; [|by eauto]. intros _. split; [by eauto 6|done].
           ++ intros ? [= <-]. congruence.
      * destruct Htitle as [-> _]. simpl.
        split_and!; try done.
        split; [by intros [? [=]]|].
        intros [(? & ? & [= <-] & ? & _) _]. congruence.
    + destruct Htitle as [-> _]. simpl.
      split_and!; try done.
      split; [by intros [? [=]]|].
      by intros [(? & ? & [=] & _) _].
Qed.

Lemma extract_book_info_iff_title_witness :
  ¬ raises (lib := sample_library) ulysses ∧
  _extract_book_info (lib := sample_library) untitled = None ∧
  _extract_book_info (lib := sample_library) bad_link = None.
Proof.
  split_and!.
  - destruct (extract_book_info_iff_title (lib := sample_library) ulysses)
      as (H & _).
    apply H. by eexists.
  - destruct (extract_book_info_iff_title (lib := sample_library) untitled)
      as (_ & _ & H & _).
    eapply H; reflexivity.
  - destruct (extract_book_info_iff_title (lib := sample_library) bad_link)
      as (_ & _ & _ & H & _).
    apply H. left. eexists _, _, _. split_and!; reflexivity.
Defined.

(** C1, as stated, fails: a row whose title link has a non-empty text and a
    target that [urljoin] refuses yields no record. *)
Lemma titled_row_dropped :
  ¬ (∀ book_entry : node,
       is_Some (_extract_book_info (lib := sample_library) book_entry) ↔
       ∃ title_elem title_link,
         find_td "field title" book_entry = Some title_elem ∧
         find_a title_elem = Some title_link ∧
         get_text title_link ≠ "").
Proof.
  intros H.
  destruct (proj2 (H bad_link)) as [b Hb]; [|discriminate Hb].
  eexists _, _. split_and!; [reflexivity|reflexivity|discriminate].
Qed.

(** The four-digit search finds the first run of four digits. *)
Lemma re_search_d4_None t :
  re_search_d4 t = None -> ∀ i y, ¬ year_at t i y.
Proof.
  induction t as [|a s' IH]; intros H i y (Hs & Hl & Hd).
  - destruct i; simpl in Hs; subst y; discriminate.
  - simpl in H.
    destruct s' as [|b [|c [|d r]]];
      try (destruct i as [|[|[|[|i]]]]; simpl in Hs; subst y; discriminate).
    destruct (is_digit a && is_digit b && is_digit c && is_digit d) eqn:E;
      [discriminate|].
    destruct i as [|i].
    + simpl in Hs. subst y. simpl in Hd.
      destruct (is_digit a), (is_digit b), (is_digit c), (is_digit d); done.
    + apply (IH H i y). split; [exact Hs|done].
Qed.

Lemma re_search_d4_Some t y :
  re_search_d4 t = Some y -> first_year t y.
Proof.
  induction t as [|a s' IH]; intros H; [discriminate|].
  simpl in H.
  destruct s' as [|b [|c [|d r]]]; try discriminate.
  destruct (is_digit a && is_digit b && is_digit c && is_digit d) eqn:E.
  - injection H as <-. exists O. split; [|lia].
    split; [by destruct r|]. split; [reflexivity|]. simpl.
    destruct (is_digit a), (is_digit b), (is_digit c), (is_digit d); done.
  - destruct (IH H) as (i & Hi & Hmin).
    exists (S i). split; [exact Hi|].
    intros [|j] y' Hj (Hs & Hl & Hd).
    + simpl in Hs. subst y'. simpl in Hd.
      destruct (is_digit a), (is_digit b), (is_digit c), (is_digit d); done.
    + apply (Hmin j y'); [lia|]. split; [exact Hs|done].
Qed.

Lemma first_year_unique t y y' :
  first_year t y -> first_year t y' -> y = y'.
Proof.
  intros (i & Hi & Hmin) (i' & Hi' & Hmin').
  destruct (Nat.lt_trichotomy i i') as [Hlt | [-> | Hlt]].
  - destruct (Hmin' i y Hlt Hi).
  - destruct Hi as [<- _], Hi' as [<- _]. done.
  - destruct (Hmin i' y' Hlt Hi').
Qed.

(** C3. When the stripped text of the publish-date value is neither empty
    nor the word None, [publish_date] is the first run of four digits of that
    text if it has one ("Mar 26, 1920" gives "1920") and the text itself if
    it has none; when the text is empty or None, or the row has no
    publish-date value, the record has no [publish_date]. *)
Theorem publish_date_first_year {lib : Library} (book_entry : node) (b : book) :
  _extract_book_info book_entry = Some b ->
  (∀ t, value_text "field date_pub" book_entry = Some t ->
     (t ≠ "" -> t ≠ "None" ->
        (∀ y, first_year t y -> b !! "publish_date" = Some (VStr y)) ∧
        ((∀ i y, ¬ year_at t i y) -> b !! "publish_date" = Some (VStr t))) ∧
     (t = "" ∨ t = "None" -> b !! "publish_date" = None)) ∧
  (value_text "field date_pub" book_entry = None -> b !! "publish_date" = None).
Proof.
  intros (Hb & _ & _)%extract_book_info_Some.
  rewrite (built_publish_date _ _ Hb).
  unfold value_text, extract_publish_date.
  destruct (find_td "field date_pub" book_entry) as [cell|]; simpl;
    [|split; [intros ? [=]|done]].
  destruct (find_value cell) as [v|]; simpl; [|split; [intros ? [=]|done]].
  split; [|intros [=]].
  intros t [= <-]. unfold has_value. split.
  - intros Hne Hnone. rewrite !bool_decide_eq_false_2 by done. simpl.
    destruct (re_search_d4 (get_text v)) as [year|] eqn:Hre.
    + apply re_search_d4_Some in Hre. split.
      * intros y Hy. rewrite lookup_insert_eq.
        by rewrite (first_year_unique _ _ _ Hre Hy).
      * intros Hnoyear. destruct Hre as (i & Hi & _). destruct (Hnoyear _ _ Hi).
    + split.
      * intros y (i & Hi & _). destruct (re_search_d4_None _ Hre _ _ Hi).
      * intros _. by rewrite lookup_insert_eq.
  - intros [-> | ->]; done.
Qed.

Lemma publish_date_first_year_witness :
  book_fields (lib := sample_library) ulysses !! "publish_date" = Some (VStr "1920") ∧
  book_fields (lib := sample_library) dateless !! "publish_date" = Some (VStr "Unknown") ∧
  book_fields (lib := sample_library) no_date !! "publish_date" = None.
Proof.
  split; [|split].
  - destruct (publish_date_first_year (lib := sample_library) ulysses
                (book_fields ulysses) eq_refl) as [H _].
    destruct (H "Mar 26, 1920" eq_refl) as [H1 _].
    apply H1; [discriminate..|].
    exists 8%nat. split; [done|].
    intros j y' Hj (<- & _ & Hd).
    do 8 (destruct j as [|j]; [vm_compute in Hd; discriminate|]). lia.
  - destruct (publish_date_first_year (lib := sample_library) dateless
                (book_fields dateless) eq_refl) as [H _].
    destruct (H "Unknown" eq_refl) as [H1 _].
    apply H1; [discriminate..|].
    apply re_search_d4_None. reflexivity.
  - destruct (publish_date_first_year (lib := sample_library) no_date
                (book_fields no_date) eq_refl) as [H _].
    destruct (H "None" eq_refl) as [_ H2].
    apply H2. by right.
Defined.

(** C4, as the code has it. The [rating] of a record is the number of filled
    star sub-elements of the rating cell's value sub-element, it is present
    exactly when that number is positive, and when present it is an integer
    of at least 1; it is at most 5 when the value sub-element holds at most
    five star sub-elements. *)
Theorem rating_counts_filled_stars {lib : Library} (book_entry : node) (b : book) :
  _extract_book_info book_entry = Some b ->
  let n := Z.of_nat (length (filled_star_elements book_entry)) in
  (0 < n -> b !! "rating" = Some (VInt n)) ∧
  (n = 0 -> b !! "rating" = None) ∧
  (∀ v, b !! "rating" = Some v -> v = VInt n ∧ 1 <= n) ∧
  ((length (star_elements book_entry) <= 5)%nat -> n <= 5).
Proof.
  intros (Hb & _ & _)%extract_book_info_Some n.
  assert (Hle : (length (filled_star_elements book_entry)
                 <= length (star_elements book_entry))%nat)
    by apply List.filter_length_le.
  assert (Hrating : b !! "rating" = if 0 <? n then Some (VInt n) else None).
  { rewrite (built_rating _ _ Hb). subst n.
    unfold extract_rating, filled_star_elements, star_elements, filled_stars.
    destruct (find_td "field rating" book_entry) as [cell|]; [|done].
    destruct (find_value cell) as [v|]; [|done].
    destruct (find_all "span" _ v) as [|s stars] eqn:Hstars; [done|].
    destruct (0 <? _); [by rewrite lookup_insert_eq|done]. }
  rewrite Hrating. split; [|split; [|split]].
  - intros Hpos. by rewrite (proj2 (Z.ltb_lt 0 n) Hpos).
  - intros ->. done.
  - intros v. destruct (0 <? n) eqn:E; [|done]. intros [= <-].
    apply Z.ltb_lt in E. split; [done|lia].
  - lia.
Qed.

Lemma rating_counts_filled_stars_witness :
  book_fields (lib := sample_library) ulysses !! "rating" = Some (VInt 3) ∧
  book_fields (lib := sample_library) dateless !! "rating" = None.
Proof.
  split.
  - apply (rating_counts_filled_stars (lib := sample_library) ulysses
             (book_fields ulysses) eq_refl).
    reflexivity.
  - apply (rating_counts_filled_stars (lib := sample_library) dateless
             (book_fields dateless) eq_refl).
    reflexivity.
Defined.

(** C4, as stated, fails: a rating cell with six filled stars gives a record
    whose rating is 6. *)
Lemma rating_above_five :
  ¬ (∀ (book_entry : node) (b : book) (z : Z),
       _extract_book_info (lib := sample_library) book_entry = Some b ->
       b !! "rating" = Some (VInt z) -> 1 <= z <= 5).
Proof.
  intros H.
  pose proof (H six_stars (book_fields six_stars) 6 eq_refl eq_refl). lia.
Qed.

(** C10. A record the extractor keeps has a [book_url], bound together with
    its [title] from the first link of the title cell; in the row exported
    for it, the title column is that non-empty title and the [book_url]
    column is the link resolved by [urljoin], which is not the empty string
    as long as [urljoin] on the site's base never returns the empty string. *)
Theorem kept_record_has_book_url {lib : Library} (sh : shelf)
    (book_entry : node) (b : book) :
  _extract_book_info book_entry = Some b ->
  ∃ title_elem title_link t u,
    find_td "field title" book_entry = Some title_elem ∧
    find_a title_elem = Some title_link ∧
    t = get_text title_link ∧ t ≠ "" ∧
    urljoin base_url (href_or_empty title_link) = Returned u ∧
    b !! "title" = Some (VStr t) ∧
    b !! "book_url" = Some (VStr u) ∧
    csv_row (<["shelf" := VStr (shelf_tag sh)]> b) !! 0%nat = Some (VStr t) ∧
    csv_row (<["shelf" := VStr (shelf_tag sh)]> b) !! 7%nat = Some (VStr u) ∧
    ((∀ url, urljoin base_url url ≠ Returned "") -> u ≠ "").
Proof.
  intros (Hb & _ & Htitle)%extract_book_info_Some.
  assert (Hlink := built_title_link book_entry b Hb).
  destruct (find_td "field title" book_entry) as [title_elem|] eqn:Hcell;
    simpl in Hlink; [|destruct Hlink as [Ht _]; by rewrite Ht in Htitle].
  destruct (find_a title_elem) as [title_link|] eqn:Hl;
    [|destruct Hlink as [Ht _]; by rewrite Ht in Htitle].
  destruct Hlink as (u & Hu & Ht & Hurl).
  rewrite Ht in Htitle.
  exists title_elem, title_link, (get_text title_link), u.
  split_and!; try done.
  - simpl in Htitle. by case_bool_decide.
  - simpl. rewrite lookup_insert_ne by done. by rewrite Ht.
  - simpl. rewrite lookup_insert_ne by done. by rewrite Hurl.
  - intros Hne ->. by apply (Hne (href_or_empty title_link)).
Qed.

Lemma kept_record_has_book_url_witness :
  csv_row (lib := sample_library)
    (<["shelf" := VStr (shelf_tag Read)]> (book_fields ulysses)) !! 7%nat
  = Some (VStr "https://www.goodreads.com/book/show/338798") ∧
  "https://www.goodreads.com/book/show/338798" ≠ "".
Proof.
  destruct (kept_record_has_book_url (lib := sample_library) Read ulysses
              (book_fields ulysses) eq_refl)
    as (title_elem & title_link & t & u & Hcell & Hlink & Ht & Hne & Hu & _ & _ & _ & Hcol & Hjoin).
  injection Hcell as <-. injection Hlink as <-.
  rewrite Hcol. injection Hu as <-. split; [reflexivity|].
  discriminate.
Defined.

(** ** The entry locator *)

Section LocatorFacts.

Context {lib : Library}.

Lemma elem_of_find_all name p n e :
  e ∈ find_all name p n ↔
  e ∈ descendants n ∧ tag_name e = Some name ∧ p e = true.
Proof.
  unfold find_all, is_tag.
  rewrite list_elem_of_In, filter_In, <- list_elem_of_In, andb_true_iff,
    bool_decide_eq_true.
  tauto.
Qed.

Lemma find_is_Some name p n :
  is_Some (find name p n) ↔
  ∃ e, e ∈ descendants n ∧ tag_name e = Some name ∧ p e = true.
Proof.
  unfold find. split.
  - intros [e He]. exists e. apply elem_of_find_all.
    destruct (find_all name p n); [done|].
    injection He as ->. left.
  - intros (e & He). apply elem_of_find_all in He.
    destruct (find_all name p n); [by apply elem_of_nil in He|].
    by eexists.
Qed.

Lemma has_book_link_true e :
  has_book_link e = true ↔
  ∃ a h, a ∈ descendants e ∧ tag_name a = Some "a" ∧
         get_href a = Some h ∧ contains "/book/show/" h = true.
Proof.
  unfold has_book_link. rewrite bool_decide_eq_true, find_is_Some.
  unfold href_is_book. split.
  - intros (a & Ha & Hname & Hhref).
    destruct (get_href a) as [h|] eqn:E; [|done]. by exists a, h.
  - intros (a & h & Ha & Hname & Hh & Hc). exists a. by rewrite Hh.
Qed.

Lemma locate_entries_located page w :
  (locate_entries page w).1 = located page.
Proof.
  unfold locate_entries, located. unfold_io.
  destruct (method1 page); simpl; [|done].
  destruct (method2 page); simpl; done.
Qed.

End LocatorFacts.

(** C2. The locator tries three methods in order: rows with the [bookalike]
    class; rows holding a link whose target contains [/book/show/];
    [div]s whose class matches [book|item|entry] and which hold such a link.
    It returns what the first method with any result returns, and announces
    a later method on the console only when it goes on to it: with no
    [bookalike] row and three rows with a book link, those three rows are
    returned and the third method is not announced. *)
Theorem locate_entries_fallback {lib : Library} (page : soup) (w : world) :
  let entries := (locate_entries page w).1 in
  let w' := (locate_entries page w).2 in
  let line2 := "No 'bookalike' rows found, trying alternative selectors..." in
  let line3 := "No table rows found, trying div-based layout..." in
  (∀ e, e ∈ method1 page ↔
        e ∈ descendants page ∧ tag_name e = Some "tr" ∧
        class_matches (class_is "bookalike") e = true) ∧
  (∀ e, e ∈ method2 page ↔
        e ∈ descendants page ∧ tag_name e = Some "tr" ∧
        ∃ a h, a ∈ descendants e ∧ tag_name a = Some "a" ∧
               get_href a = Some h ∧ contains "/book/show/" h = true) ∧
  (∀ e, e ∈ method3 page ↔
        e ∈ descendants page ∧ tag_name e = Some "div" ∧
        class_matches re_book_item_entry e = true ∧
        ∃ a h, a ∈ descendants e ∧ tag_name a = Some "a" ∧
               get_href a = Some h ∧ contains "/book/show/" h = true) ∧
  (method1 page ≠ [] ->
     entries = method1 page ∧ stdout w' = stdout w) ∧
  (method1 page = [] -> method2 page ≠ [] ->
     entries = method2 page ∧ stdout w' = stdout w ++ [line2]) ∧
  (method1 page = [] -> method2 page = [] ->
     entries = method3 page ∧ stdout w' = stdout w ++ [line2; line3]) ∧
  (method1 page = [] -> length (method2 page) = 3%nat ->
     entries = method2 page ∧ stdout w' = stdout w ++ [line2]) ∧
  files w' = files w ∧ requests w' = requests w ∧ sleeps w' = sleeps w.
Proof.
  intros entries w' line2 line3.
  split_and!.
  - intros e. unfold method1. apply elem_of_find_all.
  - intros e. unfold method2.
    rewrite list_elem_of_In, filter_In, <- list_elem_of_In, elem_of_find_all,
      has_book_link_true.
    unfold any_tag. tauto.
  - intros e. unfold method3.
    rewrite list_elem_of_In, filter_In, <- list_elem_of_In, elem_of_find_all,
      has_book_link_true.
    tauto.
  - subst entries w'. unfold locate_entries. unfold_io.
    destruct (method1 page); [done|]. done.
  - subst entries w'. unfold locate_entries. unfold_io.
    intros -> H2. simpl. destruct (method2 page); [done|]. done.
  - subst entries w'. unfold locate_entries. unfold_io.
    intros -> ->. simpl. by rewrite <- app_assoc.
  - subst entries w'. unfold locate_entries. unfold_io.
    intros -> H2. simpl. destruct (method2 page); [done|]. done.
  - subst w'. unfold locate_entries. unfold_io.
    destruct (method1 page); [|done]. simpl. destruct (method2 page); done.
  - subst w'. unfold locate_entries. unfold_io.
    destruct (method1 page); [|done]. simpl. destruct (method2 page); done.
  - subst w'. unfold locate_entries. unfold_io.
    destruct (method1 page); [|done]. simpl. destruct (method2 page); done.
Qed.

Lemma locate_entries_fallback_witness :
  (locate_entries (lib := sample_library) three_plain_rows empty_world).1
  = [ plain_row "/book/show/1" "Dubliners";
      plain_row "/book/show/2" "Exiles";
      plain_row "/book/show/3" "Ulysses" ] ∧
  stdout (locate_entries (lib := sample_library) three_plain_rows empty_world).2
  = ["No 'bookalike' rows found, trying alternative selectors..."] ∧
  length (method3 three_plain_rows) = 1%nat.
Proof.
  destruct (locate_entries_fallback (lib := sample_library) three_plain_rows
              empty_world) as (_ & _ & _ & _ & _ & _ & H & _).
  destruct (H eq_refl eq_refl) as [-> ->].
  split_and!; reflexivity.
Defined.

(** ** Export *)



(** ** The pager *)

Section PagerFacts.

Context {lib : Library}.

Variable server : list string -> string -> reply.

Lemma returns_ret {A} (a : A) : returns (mret a) a.
Proof. done. Qed.

Lemma returns_print line : returns (print line) tt.
Proof. done. Qed.

Lemma returns_write_file name f : returns (write_file name f) tt.
Proof. done. Qed.

Lemma returns_bind {A B} (m : io A) (f : A -> io B) a b :
  returns m a -> returns (f a) b -> returns (m ≫= f) b.
Proof.
  intros Hm Hf w. unfold mbind, io_bind.
  destruct (m w) as [x w1] eqn:E.
  destruct (Hm w) as (Hx & Hr & Hs). rewrite E in Hx, Hr, Hs. simpl in *. subst x.
  destruct (Hf w1) as (Hb & Hr' & Hs'). split_and!; congruence.
Qed.

(** A line is printed, then the rest runs. *)
Ltac after_print := eapply returns_bind; [apply returns_print|].


Lemma returns_locate_entries page : returns (locate_entries page) (located page).
Proof.
  intros w. unfold locate_entries, located. unfold_io.
  destruct (method1 page); simpl; [|done].
  destruct (method2 page); simpl; done.
Qed.

Lemma returns_print_each {A} (line : A -> io unit) (items : list A) :
  (∀ x, returns (line x) tt) ->
  returns (foldr (fun x rest => line x;; rest) (mret tt) items) tt.
Proof.
  intros Hline. induction items as [|x items IH]; simpl; [done|].
  eapply returns_bind; [apply Hline|apply IH].
Qed.

Lemma returns_print_lines lines : returns (print_lines lines) tt.
Proof. unfold print_lines. apply returns_print_each. intros. apply returns_print. Qed.

Lemma returns_report_no_entries sh page_number page :
  returns (report_no_entries sh page_number page) tt.
Proof.
  unfold report_no_entries.
  after_print.
  after_print.
  after_print.
  destruct (is_nil _); [done|].
  after_print.
  generalize (imap (fun i l => (i, l))
                (take 3 (find_all "a" href_is_book page))).
  intros items. induction items as [|[i l] items IH]; simpl; [done|].
  eapply returns_bind; [apply returns_print|apply IH].
Qed.

Lemma returns_scrape_fetched sh username page_number page :
  returns (scrape_fetched sh username page_number page)
    (extract_page_books sh (located page),
     negb (is_nil (extract_page_books sh (located page)))
     && bool_decide (is_Some (find "a" (class_matches (class_is "next_page")) page))).
Proof.
  unfold scrape_fetched.
  eapply returns_bind.
  { instantiate (1 := tt). case_bool_decide; [|done].
    eapply returns_bind; [apply returns_write_file|apply returns_print]. }
  eapply returns_bind; [apply returns_locate_entries|].
  after_print.
  destruct (is_nil (located page)) eqn:Hnil.
  { destruct (located page); [|done].
    eapply returns_bind; [apply returns_report_no_entries|done]. }
  eapply returns_bind; [apply returns_print_lines|].
  destruct (is_nil (extract_page_books sh (located page))) eqn:Hnone.
  { destruct (extract_page_books sh (located page)); [|done].
    after_print.
    eapply returns_bind; [|done].
    instantiate (1 := tt).
    destruct (located page); [done|].
    eapply returns_bind; [apply returns_print|apply returns_print]. }
  after_print.
  destruct (find "a" _ page) as [next|]; simpl.
  - done.
  - eapply returns_bind; [apply returns_print|done].
Qed.

Lemma scrape_page_reply sh username page_number w :
  let url := shelf_url sh username page_number in
  let r := server (requests w) url in
  (scrape_page server sh username page_number w).1
    = (records_of sh url r, goes_on sh url r) ∧
  requests (scrape_page server sh username page_number w).2 = requests w ++ [url] ∧
  sleeps (scrape_page server sh username page_number w).2 = sleeps w.
Proof.
  intros url r.
  unfold scrape_page, fetch, session_get, records_of, goes_on, page_of.
  unfold_io. simpl. fold url. fold r.
  destruct r as [e | status_code reason content]; simpl; [done|].
  destruct (raise_for_status status_code reason url); simpl; [done|].
  match goal with |- context [scrape_fetched _ _ _ _ ?w1] =>
    destruct (returns_scrape_fetched sh username page_number content w1)
      as (H1 & H2 & H3)
  end.
  rewrite H1, H2, H3. done.
Qed.

Lemma pager_step sh username max_pages page books w :
  pager server sh username max_pages page books w =
  if decide (page <= max_pages)
  then
    let '((page_books, more), w') := scrape_page server sh username page w in
    if more
    then pager server sh username max_pages (page + 1) (books ++ page_books)
           (sleep 1 w').2
    else (books ++ page_books, w')
  else (books, w).
Proof.
  simp pager. destruct (decide (page <= max_pages)); simpl; [|done].
  destruct (scrape_page server sh username page w) as [[page_books []] w'];
    simpl; done.
Qed.

Lemma nth_url_0 sh username first :
  nth_url sh username first 0 = shelf_url sh username first.
Proof. unfold nth_url. by rewrite Z.add_0_r. Qed.

Lemma nth_url_S sh username first i :
  nth_url sh username first (S i) = nth_url sh username (first + 1) i.
Proof. unfold nth_url. f_equal. lia. Qed.

Lemma urls_S sh username first k :
  urls sh username first (S k)
  = shelf_url sh username first :: urls sh username (first + 1) k.
Proof.
  unfold urls. simpl. rewrite nth_url_0. f_equal.
  rewrite <- fmap_S_seq, <- list_fmap_compose.
  apply list_fmap_ext. intros _ i _. apply nth_url_S.
Qed.

Lemma nth_reply_0 sh username history first :
  nth_reply server sh username history first 0
  = server history (shelf_url sh username first).
Proof. unfold nth_reply, urls. simpl. by rewrite app_nil_r, nth_url_0. Qed.

Lemma nth_reply_S sh username history first i :
  nth_reply server sh username history first (S i)
  = nth_reply server sh username (history ++ [shelf_url sh username first])
      (first + 1) i.
Proof.
  unfold nth_reply. by rewrite urls_S, nth_url_S, <- app_assoc.
Qed.

(** The run of the loop from any of its states: the pages it asks for are
    consecutive, every page but the last made it go on, and if it stopped
    before the cap the last page did not. *)
Lemma pager_trace sh username max_pages (n : nat) :
  ∀ page books w,
    Z.to_nat (max_pages + 1 - page) = n ->
    ∃ k : nat,
      (k <= n)%nat ∧
      requests (pager server sh username max_pages page books w).2
        = requests w ++ urls sh username page k ∧
      (pager server sh username max_pages page books w).1
        = books ++ concat
            ((fun i => records_of sh (nth_url sh username page i)
                         (nth_reply server sh username (requests w) page i))
             <$> seq 0 k) ∧
      (∀ i, (S i < k)%nat ->
         goes_on sh (nth_url sh username page i)
           (nth_reply server sh username (requests w) page i) = true) ∧
      ((k < n)%nat ->
         ∃ j, k = S j ∧
           goes_on sh (nth_url sh username page j)
             (nth_reply server sh username (requests w) page j) = false).
Proof.
  induction n as [|n IH]; intros page books w Hn; rewrite pager_step.
  - rewrite decide_False by lia. exists O. simpl.
    rewrite !app_nil_r. split_and!; [done..|lia|lia].
  - rewrite decide_True by lia.
    destruct (scrape_page_reply sh username page w) as (Hres & Hreq & _).
    destruct (scrape_page server sh username page w) as [[page_books more] w'].
    simpl in Hres, Hreq. injection Hres as -> Hmore.
    destruct more.
    + assert (Hreq' : requests (sleep 1 w').2
                      = requests w ++ [shelf_url sh username page]) by done.
      generalize dependent ((sleep 1 w').2). intros w'' Hreq'.
      destruct (IH (page + 1) (books ++ records_of sh (shelf_url sh username page)
                                  (server (requests w) (shelf_url sh username page)))
                  w'') as (k & Hk & Hreqs & Hbooks & Hon & Hoff); [lia|].
      rewrite Hreq' in Hreqs, Hbooks, Hon, Hoff.
      exists (S k). split_and!.
      * lia.
      * rewrite Hreqs, urls_S, <- app_assoc. done.
      * rewrite Hbooks, <- app_assoc. f_equal. simpl.
        rewrite nth_url_0, nth_reply_0. f_equal. f_equal.
        rewrite <- fmap_S_seq, <- list_fmap_compose.
        apply list_fmap_ext. intros _ i _. simpl.
        by rewrite nth_url_S, nth_reply_S.
      * intros [|i] Hi.
        -- by rewrite nth_url_0, nth_reply_0.
        -- rewrite nth_url_S, nth_reply_S. apply Hon. lia.
      * intros Hlt. destruct Hoff as (j & -> & Hj); [lia|].
        exists (S j). split; [done|]. by rewrite nth_url_S, nth_reply_S.
    + exists 1%nat. simpl. split_and!.
      * lia.
      * by rewrite Hreq, urls_S.
      * by rewrite nth_url_0, nth_reply_0, app_nil_r.
      * intros i Hi. lia.
      * intros _. exists O. split; [done|].
        by rewrite nth_url_0, nth_reply_0.
Qed.

Lemma scrape_shelf_trace sh username max_pages w :
  ∃ k : nat,
    (k <= Z.to_nat max_pages)%nat ∧
    requests (scrape_shelf server sh username max_pages w).2
      = requests w ++ urls sh username 1 k ∧
    (scrape_shelf server sh username max_pages w).1
      = concat ((fun i => records_of sh (nth_url sh username 1 i)
                            (nth_reply server sh username (requests w) 1 i))
                <$> seq 0 k) ∧
    (∀ i, (S i < k)%nat ->
       goes_on sh (nth_url sh username 1 i)
         (nth_reply server sh username (requests w) 1 i) = true) ∧
    ((k < Z.to_nat max_pages)%nat ->
       ∃ j, k = S j ∧
         goes_on sh (nth_url sh username 1 j)
           (nth_reply server sh username (requests w) 1 j) = false).
Proof.
  unfold scrape_shelf. unfold_io.
  destruct (print _ w) as [[] w1] eqn:E1.
  assert (H1 : requests w1 = requests w) by (by injection E1 as <-).
  destruct (pager_trace sh username max_pages (Z.to_nat max_pages) 1 [] w1)
    as (k & Hk & Hreqs & Hbooks & Hon & Hoff); [lia|].
  destruct (pager server sh username max_pages 1 [] w1) as [books w2].
  simpl in *. rewrite H1 in *. by exists k.
Qed.

Lemma goes_on_false sh url r :
  goes_on sh url r = false ↔
  page_of url r = None ∨
  ∃ page, page_of url r = Some page ∧
    (extract_page_books sh (located page) = [] ∨
     find "a" (class_matches (class_is "next_page")) page = None).
Proof.
  unfold goes_on. destruct (page_of url r) as [page|]; [|by split; [left|]].
  rewrite andb_false_iff, negb_false_iff, bool_decide_eq_false.
  split.
  - intros [Hnil | Hnext]; right; exists page; split; try done.
    + left. by destruct (extract_page_books sh (located page)).
    + right. destruct (find "a" _ page); [|done]. destruct Hnext. eauto.
  - intros [[=] | (page' & [= <-] & [-> | ->])]; [by left|].
    right. by intros [? [=]].
Qed.

Lemma fetch_reply url w :
  (fetch server url w).1 = match page_of url (server (requests w) url) with
                           | Some page => inr page
                           | None =>
                               match server (requests w) url with
                               | Failure e => inl e
                               | Response status_code reason _ =>
                                   inl (default "" (raise_for_status status_code reason url))
                               end
                           end ∧
  requests (fetch server url w).2 = requests w ++ [url] ∧
  sleeps (fetch server url w).2 = sleeps w.
Proof.
  unfold fetch, session_get, page_of. unfold_io. simpl.
  destruct (server (requests w) url) as [e|status_code reason content]; [done|].
  by destruct (raise_for_status status_code reason url).
Qed.

Lemma scrape_profile_requests username w :
  requests (scrape_profile server username w).2
    = requests w ++ [get_profile_url username] ∧
  (page_of (get_profile_url username)
     (server (requests w) (get_profile_url username)) = None ->
   (scrape_profile server username w).1 = ∅).
Proof.
  unfold scrape_profile, mbind, io_bind.
  destruct (fetch_reply (get_profile_url username) w) as (Hr & Hreq & _).
  destruct (fetch server (get_profile_url username) w) as [r w1].
  simpl in Hr, Hreq.
  destruct (page_of _ _) as [page|]; subst r.
  - split; [done|]. intros [=].
  - destruct (server (requests w) (get_profile_url username)); done.
Qed.

Lemma returns_save_to_csv books filename : returns (save_to_csv books filename) tt.
Proof.
  unfold save_to_csv. destruct (is_nil books); [apply returns_print|].
  eapply returns_bind; [apply returns_write_file|apply returns_print].
Qed.

Lemma returns_print_books_summary books : returns (print_books_summary books) tt.
Proof.
  unfold print_books_summary. destruct (is_nil books); [apply returns_print|].
  do 4 after_print.
  eapply returns_bind.
  { instantiate (1 := tt). case_bool_decide; [done|].
    eapply returns_bind; [apply returns_print|apply returns_print_lines]. }
  eapply returns_bind; [|apply returns_print].
  instantiate (1 := tt). destruct (is_nil _); [done|].
  eapply returns_bind; [apply returns_print|apply returns_print_lines].
Qed.

Lemma returns_print_details b : returns (print_details b) tt.
Proof.
  unfold print_details.
  eapply returns_bind.
  { instantiate (1 := tt). destruct (truthy _); [apply returns_print|done]. }
  eapply returns_bind; [|apply returns_print].
  instantiate (1 := tt). destruct (truthy _); [apply returns_print|done].
Qed.

Lemma returns_print_listing with_shelf books :
  returns (print_listing with_shelf books) tt.
Proof.
  unfold print_listing.
  generalize (imap (fun i (b : book) => (i, b)) books).
  intros items. induction items as [|[i b] items IH]; simpl; [done|].
  after_print.
  eapply returns_bind; [apply returns_print_details|apply IH].
Qed.

Lemma run_bind {A B} (m : io A) (f : A -> io B) w :
  (m ≫= f) w = f (m w).1 (m w).2.
Proof. unfold mbind, io_bind. by destruct (m w). Qed.

Lemma returns_then {A B} (m : io A) (a : A) (f : A -> io B) w
    (P : B * world -> Prop) :
  returns m a ->
  (∀ w', requests w' = requests w -> P (f a w')) ->
  P ((m ≫= f) w).
Proof.
  intros Hm HP. rewrite run_bind. destruct (Hm w) as (-> & Hreq & _). by apply HP.
Qed.

(** A run of [main] with a user name: the profile page, then the pages of
    the read shelf, then those of the currently-reading shelf, whatever the
    profile request came to; the exit status is 0. *)
Lemma main_requests prog username w :
  ∃ k1 k2 : nat,
    (1 <= k1 <= 50)%nat ∧ (1 <= k2 <= 10)%nat ∧
    requests (main server [prog; username] w).2
      = requests w ++ [get_profile_url username]
        ++ urls Read username 1 k1 ++ urls CurrentlyReading username 1 k2 ∧
    (main server [prog; username] w).1 = 0.
Proof.
  unfold main.
  match goal with |- context [mbind ?f ?m w] =>
    pattern (mbind f m w); apply (returns_then m tt f w); [apply returns_print|]
  end.
  intros w1 H1.
  match goal with |- context [mbind ?f ?m w1] =>
    pattern (mbind f m w1); apply (returns_then m tt f w1); [apply returns_print|]
  end.
  intros w2 H2.
  rewrite run_bind.
  destruct (scrape_profile_requests username w2) as [Hp _].
  destruct (scrape_profile server username w2) as [profile_info w3].
  simpl in Hp. cbn [fst snd].
  match goal with |- context [mbind ?f ?m w3] =>
    pattern (mbind f m w3); apply (returns_then m tt f w3)
  end.
  { case_bool_decide; [done|].
    after_print.
    eapply returns_bind; [apply returns_print_lines|apply returns_print]. }
  intros w4 H4.
  rewrite run_bind. unfold scrape_read_books.
  destruct (scrape_shelf_trace Read username (default_max_pages Read) w4)
    as (k1 & Hk1 & Hr1 & _ & _ & Hoff1).
  destruct (scrape_shelf server Read username (default_max_pages Read) w4)
    as [read_books w5].
  cbn [fst snd] in *.
  rewrite run_bind. unfold scrape_currently_reading.
  destruct (scrape_shelf_trace CurrentlyReading username
              (default_max_pages CurrentlyReading) w5)
    as (k2 & Hk2 & Hr2 & _ & _ & Hoff2).
  destruct (scrape_shelf server CurrentlyReading username
              (default_max_pages CurrentlyReading) w5)
    as [currently_reading_books w6].
  cbn [fst snd] in *.
  match goal with |- context [mbind ?f ?m w6] =>
    pattern (mbind f m w6); apply (returns_then m tt f w6)
  end.
  { destruct (is_nil _).
    - do 4 after_print. apply returns_print.
    - eapply returns_bind.
      { instantiate (1 := tt). destruct (is_nil read_books); [done|].
        do 3 after_print.
        apply returns_print_books_summary. }
      eapply returns_bind.
      { instantiate (1 := tt). destruct (is_nil currently_reading_books); [done|].
        do 5 after_print.
        apply returns_print_listing. }
      eapply returns_bind; [apply returns_save_to_csv|].
      do 6 after_print.
      eapply returns_bind; [apply returns_print_listing|].
      destruct (_ <? _)%nat; [apply returns_print|done]. }
  intros w7 H7. exists k1, k2. simpl in Hk1, Hk2, Hoff1, Hoff2. simpl.
  assert (1 <= k1)%nat.
  { destruct (decide (k1 < 50)%nat) as [Hlt|]; [|lia].
    destruct (Hoff1 Hlt) as (? & -> & _). lia. }
  assert (1 <= k2)%nat.
  { destruct (decide (k2 < 10)%nat) as [Hlt|]; [|lia].
    destruct (Hoff2 Hlt) as (? & -> & _). lia. }
  split_and!; [lia|lia|lia|lia| |done].
  rewrite H7, Hr2, Hr1, H4, Hp, H2, H1, <- !app_assoc. done.
Qed.

Lemma goes_on_true sh url r :
  goes_on sh url r = true ↔
  ∃ page, page_of url r = Some page ∧
    located page ≠ [] ∧
    extract_page_books sh (located page) ≠ [] ∧
    is_Some (find "a" (class_matches (class_is "next_page")) page).
Proof.
  unfold goes_on. destruct (page_of url r) as [page|].
  - rewrite andb_true_iff, negb_true_iff, bool_decide_eq_true. split.
    + intros [Hnil Hnext]. exists page. split_and!; try done.
      * intros Hloc. by rewrite Hloc in Hnil.
      * intros Hrec. by rewrite Hrec in Hnil.
    + intros (page' & [= <-] & _ & Hrec & Hnext). split; [|done].
      by destruct (extract_page_books sh (located page)).
  - split; [done|]. by intros (? & [=] & _).
Qed.

Lemma failed_page_of url r : failed r -> page_of url r = None.
Proof.
  destruct r as [e|status_code reason content]; [done|]. simpl.
  intros [Hlo Hhi]. unfold raise_for_status.
  destruct (decide (status_code < 500)).
  - rewrite (proj2 (Z.leb_le 400 status_code)), (proj2 (Z.ltb_lt status_code 500));
      done.
  - rewrite (proj2 (Z.ltb_ge status_code 500)) by lia. rewrite andb_false_r.
    rewrite (proj2 (Z.leb_le 500 status_code)), (proj2 (Z.ltb_lt status_code 600));
      [done|lia..].
Qed.

Lemma pager_stops sh username max_pages page books w :
  page <= max_pages ->
  goes_on sh (shelf_url sh username page)
    (server (requests w) (shelf_url sh username page)) = false ->
  (pager server sh username max_pages page books w).1
    = books ++ records_of sh (shelf_url sh username page)
                 (server (requests w) (shelf_url sh username page)) ∧
  requests (pager server sh username max_pages page books w).2
    = requests w ++ [shelf_url sh username page] ∧
  sleeps (pager server sh username max_pages page books w).2 = sleeps w.
Proof.
  intros Hle Hoff. rewrite pager_step, decide_True by done.
  destruct (scrape_page_reply sh username page w) as (Hres & Hreq & Hsl).
  destruct (scrape_page server sh username page w) as [[page_books more] w'].
  simpl in Hres, Hreq, Hsl. injection Hres as -> ->. rewrite Hoff. done.
Qed.

End PagerFacts.

(** C6. A page from which no record was extracted is the last page the loop
    asks for, with or without a next-page link on it: from any state of the
    loop, such a page makes the loop return the books it had, after that one
    request; and in a whole run of a shelf, a page that contributed no record
    is the last one requested. *)
Theorem no_fetch_after_empty_page {lib : Library}
    (server : list string -> string -> reply) (sh : shelf) (username : string)
    (max_pages : Z) :
  (∀ page books w status_code reason content,
     page <= max_pages ->
     server (requests w) (shelf_url sh username page)
       = Response status_code reason content ->
     raise_for_status status_code reason (shelf_url sh username page) = None ->
     extract_page_books sh (located content) = [] ->
     (pager server sh username max_pages page books w).1 = books ∧
     requests (pager server sh username max_pages page books w).2
       = requests w ++ [shelf_url sh username page]) ∧
  (∀ w, ∃ k : nat,
     requests (scrape_shelf server sh username max_pages w).2
       = requests w ++ urls sh username 1 k ∧
     ∀ i, (i < k)%nat ->
       records_of sh (nth_url sh username 1 i)
         (nth_reply server sh username (requests w) 1 i) = [] ->
       k = S i).
Proof.
  split.
  - intros page books w status_code reason content Hle Hreply Hok Hnone.
    assert (Hpage : page_of (shelf_url sh username page)
                      (server (requests w) (shelf_url sh username page))
                    = Some content).
    { rewrite Hreply. simpl. by rewrite Hok. }
    destruct (pager_stops server sh username max_pages page books w Hle)
      as (Hbooks & Hreq & _).
    { unfold goes_on. by rewrite Hpage, Hnone. }
    unfold records_of in Hbooks. rewrite Hpage, Hnone, app_nil_r in Hbooks. done.
  - intros w.
    destruct (scrape_shelf_trace server sh username max_pages w)
      as (k & _ & Hreq & _ & Hon & _).
    exists k. split; [done|].
    intros i Hi Hnone.
    destruct (decide (S i < k)%nat) as [Hlt|]; [|lia].
    specialize (Hon i Hlt). apply goes_on_true in Hon.
    destruct Hon as (page & Hpage & _ & Hrec & _).
    unfold records_of in Hnone. rewrite Hpage in Hnone. done.
Qed.

Lemma no_fetch_after_empty_page_witness :
  (pager (lib := sample_library) blank_page_site Read "bob" 50 1 [] empty_world).1
  = [] ∧
  requests (pager (lib := sample_library) blank_page_site Read "bob" 50 1 []
              empty_world).2
  = [] ++ [shelf_url Read "bob" 1] ∧
  is_Some (find "a" (class_matches (class_is "next_page"))
             (shelf_page [untitled] true)).
Proof.
  destruct (no_fetch_after_empty_page (lib := sample_library) blank_page_site
              Read "bob" 50) as [H _].
  destruct (H 1 [] empty_world 200 "OK" (shelf_page [untitled] true))
    as [Hbooks Hreq]; [lia|reflexivity|reflexivity|reflexivity|].
  split_and!; [exact Hbooks|exact Hreq|by eexists].
Defined.

(** C7. The loop of a shelf is a total function of its inputs. It asks for
    pages 1, 2, ... in order and for at most [max_pages] of them; [main] runs
    it with 50 for the read shelf and 10 for the currently-reading shelf.
    Every page but the last one asked for was fetched, had entries, gave
    records and had a next-page link; when the loop stops before the cap,
    the last page failed to be fetched, or had no entry, or gave no record,
    or had no next-page link. *)
Theorem shelf_pages_bounded {lib : Library}
    (server : list string -> string -> reply) (sh : shelf) (username : string)
    (max_pages : Z) (w : world) :
  (∃ k : nat,
     requests (scrape_shelf server sh username max_pages w).2
       = requests w ++ urls sh username 1 k ∧
     Z.of_nat k <= Z.max 0 max_pages ∧
     (∀ i, (S i < k)%nat ->
        ∃ page,
          page_of (nth_url sh username 1 i)
            (nth_reply server sh username (requests w) 1 i) = Some page ∧
          located page ≠ [] ∧
          extract_page_books sh (located page) ≠ [] ∧
          is_Some (find "a" (class_matches (class_is "next_page")) page)) ∧
     (Z.of_nat k < max_pages ->
        ∃ j, k = S j ∧
          (page_of (nth_url sh username 1 j)
             (nth_reply server sh username (requests w) 1 j) = None ∨
           ∃ page,
             page_of (nth_url sh username 1 j)
               (nth_reply server sh username (requests w) 1 j) = Some page ∧
             (located page = [] ∨
              extract_page_books sh (located page) = [] ∨
              find "a" (class_matches (class_is "next_page")) page = None)))) ∧
  default_max_pages Read = 50 ∧
  default_max_pages CurrentlyReading = 10 ∧
  (∀ prog, ∃ k1 k2 : nat,
     (k1 <= 50)%nat ∧ (k2 <= 10)%nat ∧
     requests (main server [prog; username] w).2
       = requests w ++ [get_profile_url username]
         ++ urls Read username 1 k1 ++ urls CurrentlyReading username 1 k2).
Proof.
  split_and!; [|done|done|].
  - destruct (scrape_shelf_trace server sh username max_pages w)
      as (k & Hk & Hreq & _ & Hon & Hoff).
    exists k. split_and!; [done|lia| |].
    + intros i Hi. apply goes_on_true. by apply Hon.
    + intros Hlt. destruct Hoff as (j & -> & Hj); [lia|].
      exists j. split; [done|].
      apply goes_on_false in Hj.
      destruct Hj as [Hnone | (page & Hpage & [Hrec | Hnext])]; [by left|..];
        right; exists page; auto.
  - intros prog.
    destruct (main_requests server prog username w)
      as (k1 & k2 & Hk1 & Hk2 & Hreq & _).
    exists k1, k2. split_and!; [lia|lia|done].
Qed.

Lemma shelf_pages_bounded_witness :
  ∃ k : nat,
    requests (scrape_currently_reading (lib := sample_library) endless_site
                "bob" 3 empty_world).2
    = urls CurrentlyReading "bob" 1 k ∧ Z.of_nat k <= 3.
Proof.
  destruct (shelf_pages_bounded (lib := sample_library) endless_site
              CurrentlyReading "bob" 3 empty_world)
    as ((k & Hreq & Hk & _) & _).
  exists k. split; [exact Hreq|]. simpl in Hk. lia.
Defined.

(** A run whose profile request is refused still asks for both shelves. *)
Example main_after_refused_profile :
  requests (main (lib := sample_library) no_profile_site
              ["goodreads_scraper.py"; "bob"] empty_world).2
  = [ "https://www.goodreads.com/user/show/bob";
      "https://www.goodreads.com/review/list/bob?shelf=read&page=1";
      "https://www.goodreads.com/review/list/bob?shelf=currently-reading&page=1" ].
Proof. vm_compute. reflexivity. Qed.

(** C8, as the code has it. A request for a shelf page that fails, or whose
    answer has a status from 400 to 599, ends the loop of that shelf: the
    loop returns the books it had, and asks for nothing more. When the
    request for the profile page fails in that way, [scrape_profile] returns
    the empty profile, and [main] goes on to both shelves and exits with
    status 0. *)
Theorem request_failure_contained {lib : Library}
    (server : list string -> string -> reply) (username : string) :
  (∀ sh max_pages page books w,
     page <= max_pages ->
     failed (server (requests w) (shelf_url sh username page)) ->
     (pager server sh username max_pages page books w).1 = books ∧
     requests (pager server sh username max_pages page books w).2
       = requests w ++ [shelf_url sh username page]) ∧
  (∀ w,
     failed (server (requests w) (get_profile_url username)) ->
     (scrape_profile server username w).1 = ∅ ∧
     requests (scrape_profile server username w).2
       = requests w ++ [get_profile_url username]) ∧
  (∀ prog w,
     failed (server (requests w) (get_profile_url username)) ->
     (main server [prog; username] w).1 = 0 ∧
     ∃ k1 k2 : nat,
       (1 <= k1)%nat ∧ (1 <= k2)%nat ∧
       requests (main server [prog; username] w).2
         = requests w ++ [get_profile_url username]
           ++ urls Read username 1 k1 ++ urls CurrentlyReading username 1 k2).
Proof.
  split_and!.
  - intros sh max_pages page books w Hle Hfail.
    apply (failed_page_of (shelf_url sh username page)) in Hfail.
    destruct (pager_stops server sh username max_pages page books w Hle)
      as (Hbooks & Hreq & _).
    { unfold goes_on. by rewrite Hfail. }
    unfold records_of in Hbooks. rewrite Hfail, app_nil_r in Hbooks. done.
  - intros w Hfail.
    apply (failed_page_of (get_profile_url username)) in Hfail.
    destruct (scrape_profile_requests server username w) as [Hreq Hnone]. auto.
  - intros prog w _.
    destruct (main_requests server prog username w)
      as (k1 & k2 & Hk1 & Hk2 & Hreq & Hexit).
    split; [done|]. exists k1, k2. split_and!; [lia|lia|done].
Qed.

Lemma request_failure_contained_witness :
  let w1 : world :=
    World [] ∅ ["https://www.goodreads.com/review/list/bob?shelf=read&page=1"] [] in
  let books : list book := [book_fields (lib := sample_library) ulysses] in
  (pager (lib := sample_library) failing_site Read "bob" 50 2 books w1).1 = books ∧
  requests (pager (lib := sample_library) failing_site Read "bob" 50 2 books w1).2
  = requests w1 ++ [shelf_url Read "bob" 2] ∧
  (scrape_profile (lib := sample_library) no_profile_site "bob" empty_world).1 = ∅ ∧
  (main (lib := sample_library) no_profile_site ["goodreads_scraper.py"; "bob"]
     empty_world).1 = 0.
Proof.
  intros w1 books.
  destruct (request_failure_contained (lib := sample_library) failing_site "bob")
    as (Hshelf & _ & _).
  destruct (request_failure_contained (lib := sample_library) no_profile_site "bob")
    as (_ & Hprofile & Hmain).
  destruct (Hshelf Read 50 2 books w1) as [Hbooks Hreq];
    [lia|cbn; lia|].
  destruct (Hprofile empty_world) as [Hinfo _]; [exact I|].
  destruct (Hmain "goodreads_scraper.py" empty_world) as [Hexit _]; [exact I|].
  split_and!; [exact Hbooks|exact Hreq|exact Hinfo|exact Hexit].
Defined.

(** C8, as stated, fails for a status outside 200-299 that is no error
    status: a page answered with status 300 is parsed like any other, and
    the loop goes on to the next page. *)
Lemma status_300_goes_on :
  ¬ (∀ (server : list string -> string -> reply) (sh : shelf) (username : string)
       (max_pages page : Z) (books : list book) (w : world)
       (status_code : Z) (reason : string) (content : soup),
       page <= max_pages ->
       server (requests w) (shelf_url sh username page)
         = Response status_code reason content ->
       ¬ (200 <= status_code < 300) ->
       requests (pager (lib := sample_library) server sh username max_pages page
                   books w).2
       = requests w ++ [shelf_url sh username page]).
Proof.
  intros H.
  assert (E := H multiple_choices_site Read "bob" 2 1 [] empty_world
                 300 "Multiple Choices" (shelf_page [ulysses] true)
                 ltac:(lia) eq_refl ltac:(lia)).
  vm_compute in E. discriminate E.
Qed.

(** ** The author ranking *)

Section RankingFacts.

Context {lib : Library}.



Lemma before_snoc {A} (l : list A) c a b :
  before (l ++ [c]) a b -> before l a b ∨ (a ∈ l ∧ b = c).
Proof.
  intros (l1 & l2 & Heq & Ha & Hb).
  destruct l2 as [|x l2 _] using rev_ind; [by apply elem_of_nil in Hb|].
  rewrite app_assoc in Heq. apply app_inj_tail in Heq as [-> ->].
  apply elem_of_app in Hb as [Hb | Hb%list_elem_of_singleton].
  - left. by exists l1, l2.
  - right. split; [|done]. apply elem_of_app. by left.
Qed.






Lemma count_author_keys_old c (l : list (string * Z)) :
  c ∈ l.*1 -> (count_author c l).*1 = l.*1.
Proof.
  induction l as [|[k n] l IH]; simpl; intros Hin.
  - by apply elem_of_nil in Hin.
  - case_bool_decide as Hk; [done|]. simpl. f_equal. apply IH.
    apply elem_of_cons in Hin as [->|]; done.
Qed.

Lemma count_author_keys_new c (l : list (string * Z)) :
  c ∉ l.*1 -> (count_author c l).*1 = l.*1 ++ [c].
Proof.
  induction l as [|[k n] l IH]; simpl; intros Hout; [done|].
  case_bool_decide as Hk.
  - subst k. destruct Hout. left.
  - simpl. f_equal. apply IH. intros Hin. apply Hout. by right.
Qed.

Lemma count_author_keys c (l : list (string * Z)) :
  (count_author c l).*1 = if decide (c ∈ l.*1) then l.*1 else l.*1 ++ [c].
Proof.
  case_decide; [by apply count_author_keys_old|by apply count_author_keys_new].
Qed.

Lemma elem_of_count_author c (l : list (string * Z)) a n :
  NoDup l.*1 ->
  (a, n) ∈ count_author c l ->
  (a ≠ c ∧ (a, n) ∈ l) ∨
  (a = c ∧ ((c, n - 1) ∈ l ∨ (n = 1 ∧ c ∉ l.*1))).
Proof.
  induction l as [|[k v] l IH]; simpl; intros Hnd Hin.
  - apply list_elem_of_singleton in Hin as [= -> ->].
    right. split; [done|]. right. split; [done|]. apply not_elem_of_nil.
  - apply NoDup_cons in Hnd as [Hk Hnd].
    case_bool_decide as Hkc.
    + subst k. apply elem_of_cons in Hin as [[= -> ->] | Hin].
      * right. split; [done|]. left. replace (v + 1 - 1) with v by lia. left.
      * left. split; [|by right].
        intros ->. apply Hk. by apply (list_elem_of_fmap_2 fst _ (c, n)).
    + apply elem_of_cons in Hin as [[= -> ->] | Hin].
      * left. split; [done|left].
      * destruct (IH Hnd Hin) as [[Hne Hl] | [-> [Hl | [-> Hout]]]].
        -- left. split; [done|by right].
        -- right. split; [done|]. left. by right.
        -- right. split; [done|]. right. split; [done|].
           intros [->|?]%elem_of_cons; done.
Qed.

Lemma count_authors_snoc books (b : book) :
  count_authors (books ++ [b]) =
  match get_text_field b "author" with
  | Some a => count_author a (count_authors books)
  | None => count_authors books
  end.
Proof. unfold count_authors. by rewrite foldl_snoc. Qed.

Lemma first_seen_snoc a books (b : book) :
  first_seen a (books ++ [b]) =
  match first_seen a books with
  | Some p => Some p
  | None => if bool_decide (get_text_field b "author" = Some a)
            then Some (length books) else None
  end.
Proof.
  induction books as [|b0 books IH]; simpl.
  - by case_bool_decide.
  - destruct (bool_decide (get_text_field b0 "author" = Some a)); [done|].
    rewrite IH. destruct (first_seen a books); simpl; [done|].
    by case_bool_decide.
Qed.

Lemma first_seen_lt a (books : list book) p :
  first_seen a books = Some p -> (p < length books)%nat.
Proof.
  revert p. induction books as [|b books IH]; simpl; intros p; [done|].
  case_bool_decide.
  - intros [= <-]. lia.
  - destruct (first_seen a books) as [q|]; [|done].
    intros [= <-]. specialize (IH q eq_refl). lia.
Qed.

Lemma books_by_snoc a books (b : book) :
  books_by a (books ++ [b]) =
  books_by a books + if bool_decide (get_text_field b "author" = Some a) then 1 else 0.
Proof.
  unfold books_by. rewrite List.filter_app, length_app. simpl.
  case_bool_decide; simpl; lia.
Qed.

Lemma books_by_unseen a (books : list book) :
  first_seen a books = None -> books_by a books = 0.
Proof.
  unfold books_by. induction books as [|b books IH]; simpl; [done|].
  case_bool_decide; [done|].
  destruct (first_seen a books); [done|]. intros _. by apply IH.
Qed.

(** What the dictionary [authors] holds once the loop over [books] is done:
    one key per author counted, in the order of the first book of each,
    bound to the number of books counted for that author. *)
Lemma count_authors_invariant (books : list book) :
  NoDup (count_authors books).*1 ∧
  (∀ a, a ∈ (count_authors books).*1 ↔ is_Some (first_seen a books)) ∧
  (∀ a n, (a, n) ∈ count_authors books -> n = books_by a books) ∧
  (∀ a b, before (count_authors books).*1 a b ->
     ∃ p q, first_seen a books = Some p ∧ first_seen b books = Some q ∧ (p < q)%nat).
Proof.
  induction books as [|b0 books (Hnd & Hkeys & Hcount & Hbefore)] using rev_ind.
  - split_and!.
    + constructor.
    + intros a. split; [by intros ?%elem_of_nil|by intros [? [=]]].
    + by intros a n ?%elem_of_nil.
    + intros a b (l1 & l2 & Heq & Ha & _).
      destruct l1; [by apply elem_of_nil in Ha|done].
  - rewrite count_authors_snoc.
    destruct (get_text_field b0 "author") as [c|] eqn:Hc.
    + assert (Hkeys' := count_author_keys c (count_authors books)).
      split_and!.
      * rewrite Hkeys'. destruct (decide _) as [|Hout]; [done|].
        apply NoDup_app. split_and!; [done| |apply NoDup_singleton].
        intros x Hx ->%list_elem_of_singleton. done.
      * intros a. rewrite Hkeys', first_seen_snoc, Hc.
        destruct (decide (c ∈ _)) as [Hin|Hout].
        -- rewrite Hkeys. destruct (first_seen a books) eqn:E; [done|].
           case_bool_decide as Hac; [|done].
           injection Hac as ->. apply Hkeys in Hin. rewrite E in Hin.
           by destruct Hin.
        -- rewrite elem_of_app, list_elem_of_singleton, Hkeys.
           destruct (first_seen a books) eqn:E.
           ++ split; [done|]. intros _. left. done.
           ++ case_bool_decide as Hac.
              ** split; [done|]. intros _. right. congruence.
              ** split; [|by intros [? [=]]].
                 intros [[? [=]] | ->]. done.
      * intros a n Hin. rewrite books_by_snoc, Hc.
        apply elem_of_count_author in Hin; [|done].
        destruct Hin as [[Hne Hin] | [-> [Hin | [-> Hout]]]].
        -- rewrite bool_decide_eq_false_2 by congruence.
           rewrite <- (Hcount a n Hin). lia.
        -- rewrite bool_decide_eq_true_2 by done.
           rewrite <- (Hcount c (n - 1) Hin). lia.
        -- rewrite bool_decide_eq_true_2 by done.
           rewrite books_by_unseen; [done|].
           destruct (first_seen c books) eqn:E; [|done].
           destruct Hout. apply Hkeys. by rewrite E.
      * intros a b. rewrite Hkeys', !first_seen_snoc, Hc.
        destruct (decide (c ∈ _)) as [Hin|Hout].
        -- intros (p & q & -> & -> & Hpq)%Hbefore. by exists p, q.
        -- intros [(p & q & -> & -> & Hpq)%Hbefore | [Ha ->]]%before_snoc.
           ++ by exists p, q.
           ++ apply Hkeys in Ha as [p Hp]. rewrite Hp.
              destruct (first_seen c books) eqn:E.
              { destruct Hout. apply Hkeys. by rewrite E. }
              rewrite bool_decide_eq_true_2 by done.
              exists p, (length books). split_and!; [done..|].
              by apply (first_seen_lt a).
    + split_and!; [done| | |].
      * intros a. rewrite first_seen_snoc, Hc, Hkeys.
        destruct (first_seen a books); [done|].
        by rewrite bool_decide_eq_false_2.
      * intros a n Hin. rewrite books_by_snoc, Hc.
        rewrite bool_decide_eq_false_2 by done. rewrite <- (Hcount a n Hin). lia.
      * intros a b (p & q & Hp & Hq & Hpq)%Hbefore.
        exists p, q. rewrite !first_seen_snoc, Hp, Hq. done.
Qed.

End RankingFacts.



(** * Further properties of the code *)

(** ** More on the field extractor *)

Section MoreExtractorFacts.

Context {lib : Library}.

Lemma built_pages e b :
  build_book_info e = Returned b ->
  match find_td "field num_pages" e ≫= find_value with
  | Some pages_value =>
      if has_value (get_text pages_value)
      then match re_search_digits (get_text pages_value) with
           | Some digits =>
               ∃ pages, py_int digits = Returned pages ∧
                        b !! "pages" = Some (VInt pages)
           | None => b !! "pages" = None
           end
      else b !! "pages" = None
  | None => b !! "pages" = None
  end.
Proof.
  intros (m1 & m2 & H1 & H2 & H3)%build_book_info_Returned.
  assert (Hnone : extract_avg_rating e (extract_rating e
                    (extract_publish_date e (extract_isbn e m2))) !! "pages"
                  = None).
  { rewrite extract_avg_rating_other, extract_rating_other,
      extract_publish_date_other, extract_isbn_other by done.
    by apply (links_other e m1 m2). }
  apply extract_pages_Returned in H3.
  destruct (find_td "field num_pages" e ≫= find_value) as [pages_value|];
    [|by subst].
  destruct (has_value (get_text pages_value)); [|by subst].
  destruct (re_search_digits (get_text pages_value)) as [digits|]; [|by subst].
  destruct H3 as (pages & Hp & ->). exists pages.
  by rewrite lookup_insert_eq.
Qed.

Lemma has_value_true t : has_value t = true ↔ t ≠ "" ∧ t ≠ "None".
Proof.
  unfold has_value.
  rewrite andb_true_iff, !negb_true_iff, !bool_decide_eq_false. done.
Qed.

Lemma int_of_digits_from_nonneg s acc :
  0 <= acc -> all_digits s = true -> 0 <= int_of_digits_from acc s.
Proof.
  revert acc. unfold all_digits.
  induction s as [|c s IH]; simpl; intros acc Hacc Hd; [done|].
  apply andb_true_iff in Hd as [Hc Hs]. apply IH; [|done].
  unfold is_digit in Hc. apply andb_true_iff in Hc as [Hlo _].
  apply N.leb_le in Hlo. lia.
Qed.

Lemma take_digits_split s :
  all_digits (take_digits s) = true ∧
  ∃ post, s = take_digits s +:+ post ∧ starts_with_digit post = false.
Proof.
  induction s as [|c s (IH & post & Hpost & Hstart)]; simpl.
  - split; [done|]. by exists "".
  - destruct (is_digit c) eqn:Hc; simpl.
    + split.
      * unfold all_digits in *. simpl. by rewrite Hc.
      * exists post. split; [exact (f_equal (String c) Hpost)|done].
    + split; [done|]. exists (String c s). simpl. by rewrite Hc.
Qed.

Lemma re_search_digits_Some t d :
  re_search_digits t = Some d -> first_digits t d.
Proof.
  induction t as [|c t IH]; simpl; [done|].
  destruct (is_digit c) eqn:Hc.
  - intros [= <-].
    destruct (take_digits_split t) as (Hall & post & Hpost & Hstart).
    exists "", post. split_and!; try done.
    + exact (f_equal (String c) Hpost).
    + unfold all_digits in *. simpl. by rewrite Hc.
  - intros (pre & post & -> & Hpre & Hne & Hall & Hstart)%IH.
    exists (String c pre), post. split_and!; try done.
    unfold has_digit in *. simpl. by rewrite Hc.
Qed.

Lemma re_search_digits_None t :
  re_search_digits t = None ↔ has_digit t = false.
Proof.
  unfold has_digit. induction t as [|c t IH]; simpl; [done|].
  destruct (is_digit c); simpl; [done|]. done.
Qed.

Lemma digit_run_unique d post d' post' :
  all_digits d = true -> starts_with_digit post = false ->
  all_digits d' = true -> starts_with_digit post' = false ->
  d +:+ post = d' +:+ post' -> d = d'.
Proof.
  unfold all_digits. revert d'.
  induction d as [|c d IH]; intros [|c' d'] Hd Hp Hd' Hp' Heq.
  - done.
  - change (post = String c' (d' +:+ post')) in Heq. subst post.
    simpl in Hp, Hd'. apply andb_true_iff in Hd' as [Hc _]. congruence.
  - change (String c (d +:+ post) = post') in Heq. subst post'.
    simpl in Hp', Hd. apply andb_true_iff in Hd as [Hc _]. congruence.
  - change (String c (d +:+ post) = String c' (d' +:+ post')) in Heq.
    injection Heq as -> Heq. simpl in Hd, Hd'.
    apply andb_true_iff in Hd as [_ Hd], Hd' as [_ Hd'].
    f_equal. by apply IH.
Qed.

Lemma first_digits_unique t d d' :
  first_digits t d -> first_digits t d' -> d = d'.
Proof.
  intros (pre & post & -> & Hpre & Hne & Hall & Hstart)
         (pre' & post' & Heq & Hpre' & Hne' & Hall' & Hstart').
  revert pre' Heq Hpre'. unfold has_digit in *.
  induction pre as [|c pre IH]; intros [|c' pre'] Heq Hpre'.
  - by apply (digit_run_unique d post d' post').
  - destruct d as [|c d]; [done|].
    change (String c (d +:+ post) = String c' (pre' +:+ d' +:+ post')) in Heq.
    injection Heq as -> _.
    unfold all_digits in Hall. simpl in Hall, Hpre'.
    apply andb_true_iff in Hall as [Hc _].
    apply orb_false_iff in Hpre' as [Hc' _]. congruence.
  - destruct d' as [|c' d']; [done|].
    change (String c (pre +:+ d +:+ post) = String c' (d' +:+ post')) in Heq.
    injection Heq as -> _.
    unfold all_digits in Hall'. simpl in Hall', Hpre.
    apply andb_true_iff in Hall' as [Hc _].
    apply orb_false_iff in Hpre as [Hc' _]. congruence.
  - change (String c (pre +:+ d +:+ post) = String c' (pre' +:+ d' +:+ post'))
      in Heq.
    injection Heq as -> Heq. simpl in Hpre, Hpre'.
    apply orb_false_iff in Hpre as [_ Hpre], Hpre' as [_ Hpre'].
    by apply (IH Hpre pre').
Qed.

Lemma built_keys e b key :
  build_book_info e = Returned b ->
  is_Some (b !! key) ->
  key ∈ ["title"; "book_url"; "author"; "author_url"; "isbn"; "publish_date";
         "rating"; "avg_rating"; "pages"].
Proof.
  intros (m1 & m2 & H1 & H2 & H3)%build_book_info_Returned Hsome.
  destruct (decide (key ∈ ["title"; "book_url"; "author"; "author_url"; "isbn";
                           "publish_date"; "rating"; "avg_rating"; "pages"]))
    as [|Hout]; [done|].
  rewrite (extract_pages_other _ _ _ _ H3), extract_avg_rating_other,
    extract_rating_other, extract_publish_date_other, extract_isbn_other,
    (extract_author_other _ _ _ _ H2), (extract_title_other _ _ _ _ H1),
    lookup_empty in Hsome
    by (intros ->; apply Hout; apply (bool_decide_unpack _); by vm_compute).
  by destruct Hsome.
Qed.

(** [int] on a run of digits. *)
Lemma digit_not_int_space c : is_digit c = true -> int_isspace c = false.
Proof.
  unfold is_digit, int_isspace. cbv zeta.
  intros [Hlo Hhi]%andb_true_iff. apply N.leb_le in Hlo, Hhi.
  repeat (apply orb_false_iff; split);
    try (apply andb_false_iff; first [left; apply N.leb_gt; lia
                                     |right; apply N.leb_gt; lia]);
    apply N.eqb_neq; lia.
Qed.

Lemma scan_digits_digits s acc n after :
  all_digits s = true -> (s ≠ "" ∨ after = true) ->
  scan_digits acc n after s
  = Some (int_of_digits_from acc s, (n + String.length s)%nat, "").
Proof.
  unfold all_digits. revert acc n after.
  induction s as [|c s IH]; intros acc n after Hd Hne; simpl in *.
  - destruct Hne as [?| ->]; [done|]. by rewrite Nat.add_0_r.
  - apply andb_true_iff in Hd as [Hc Hs]. rewrite Hc.
    rewrite IH by (done || by right). do 3 f_equal. lia.
Qed.

Lemma py_int_digits s :
  all_digits s = true -> s ≠ "" ->
  ∃ msg,
    py_int s =
    if (640 <? String.length s)%nat && (0 <? int_max_str_digits)%nat
       && (int_max_str_digits <? String.length s)%nat
    then Raised msg else Returned (int_of_digits s).
Proof.
  intros Hd Hne. destruct s as [|c s]; [done|].
  assert (Hc : is_digit c = true).
  { unfold all_digits in Hd. simpl in Hd. by apply andb_true_iff in Hd as [? _]. }
  assert (Hsign : py_int (String c s) = int_numeral (String c s) false (String c s)).
  { unfold py_int. cbn [skip_spaces]. rewrite (digit_not_int_space c Hc).
    clear Hd Hne.
    destruct c as [[] [] [] [] [] [] [] []]; try discriminate Hc; reflexivity. }
  rewrite Hsign. unfold int_numeral.
  rewrite (scan_digits_digits (String c s) 0 0 false Hd) by (by left).
  rewrite Nat.add_0_l.
  destruct (_ && _); [by eexists|]. by exists "".
Qed.

Lemma py_int_digits_Returned s z :
  all_digits s = true -> s ≠ "" -> py_int s = Returned z -> z = int_of_digits s.
Proof.
  intros Hd Hne Hz. destruct (py_int_digits s Hd Hne) as [msg Hs].
  rewrite Hz in Hs. destruct (_ && _); congruence.
Qed.

Lemma py_int_short s :
  all_digits s = true -> s ≠ "" -> (String.length s <= 640)%nat ->
  py_int s = Returned (int_of_digits s).
Proof.
  intros Hd Hne Hlen. destruct (py_int_digits s Hd Hne) as [msg ->].
  by rewrite (proj2 (Nat.ltb_ge 640 (String.length s))) by lia.
Qed.

Lemma lstrip_no_lead s : starts_with_space (lstrip s) = false.
Proof.
  induction s as [|c s IH]; simpl; [done|].
  destruct (py_isspace c) eqn:Hc; [done|]. simpl. done.
Qed.

Lemma rstrip_no_trail s : ends_with_space (rstrip s) = false.
Proof.
  induction s as [|c s IH]; simpl; [done|].
  destruct (rstrip s) as [|c' r] eqn:Hr.
  - destruct (py_isspace c) eqn:Hc; simpl; done.
  - exact IH.
Qed.

Lemma rstrip_keeps_lead s :
  starts_with_space s = false -> starts_with_space (rstrip s) = false.
Proof.
  destruct s as [|c s]; simpl; [done|]. intros Hc.
  destruct (rstrip s); [by rewrite Hc|done].
Qed.

Lemma strip_trimmed s :
  starts_with_space (strip s) = false ∧ ends_with_space (strip s) = false.
Proof.
  unfold strip. split.
  - apply rstrip_keeps_lead, lstrip_no_lead.
  - apply rstrip_no_trail.
Qed.

Lemma starts_with_space_app a b :
  a ≠ "" -> starts_with_space (a +:+ b) = starts_with_space a.
Proof. by destruct a. Qed.

Lemma ends_with_space_app a b :
  b ≠ "" -> ends_with_space (a +:+ b) = ends_with_space b.
Proof.
  intros Hb. induction a as [|c a IH]; [done|].
  change (String c a +:+ b) with (String c (a +:+ b)).
  simpl. rewrite IH. destruct (a +:+ b) eqn:E; [|done].
  destruct a, b; done.
Qed.

Lemma concat_trimmed (pieces : list string) :
  Forall (fun piece => piece ≠ "" ∧ starts_with_space piece = false
                       ∧ ends_with_space piece = false) pieces ->
  starts_with_space (String.concat "" pieces) = false ∧
  ends_with_space (String.concat "" pieces) = false ∧
  (pieces ≠ [] -> String.concat "" pieces ≠ "").
Proof.
  induction 1 as [|piece pieces (Hne & Hlead & Htrail) _ (IHl & IHt & IHn)];
    [done|].
  simpl. destruct pieces as [|piece' pieces]; [done|].
  change ("" +:+ ?x)%string with x.
  assert (Hrest : String.concat "" (piece' :: pieces) ≠ "") by by apply IHn.
  split_and!.
  - by rewrite starts_with_space_app.
  - by rewrite ends_with_space_app.
  - intros _. by destruct piece.
Qed.

Lemma stripped_strings_trimmed n :
  Forall (fun piece => piece ≠ "" ∧ starts_with_space piece = false
                       ∧ ends_with_space piece = false) (stripped_strings n).
Proof.
  unfold stripped_strings. induction (descendants n) as [|x l IH]; simpl; [done|].
  destruct x as [s|]; [|done]. simpl.
  case_bool_decide as Hs; [done|].
  constructor; [|done]. by destruct (strip_trimmed s).
Qed.

End MoreExtractorFacts.

(** X1. The [isbn] of a record is the stripped text of the isbn cell's value
    sub-element; it is absent when that text is empty or is the word None
    (also when only spaces surround the word), and when the row has no such
    value. *)
Theorem isbn_present_iff_value {lib : Library} (book_entry : node) (b : book) :
  _extract_book_info book_entry = Some b ->
  (∀ t, value_text "field isbn" book_entry = Some t ->
     (t ≠ "" -> t ≠ "None" -> b !! "isbn" = Some (VStr t)) ∧
     (t = "" ∨ t = "None" -> b !! "isbn" = None)) ∧
  (value_text "field isbn" book_entry = None -> b !! "isbn" = None).
Proof.
  intros (Hb & _ & _)%extract_book_info_Some.
  rewrite (built_isbn _ _ Hb). unfold value_text, extract_isbn.
  destruct (find_td "field isbn" book_entry) as [cell|]; simpl;
    [|split; [intros ? [=]|done]].
  destruct (find_value cell) as [v|]; simpl; [|split; [intros ? [=]|done]].
  split; [|intros [=]].
  intros t [= <-]. split.
  - intros Hne Hnone. rewrite (proj2 (has_value_true _)) by done.
    by rewrite lookup_insert_eq.
  - intros Hor. destruct (has_value (get_text v)) eqn:E; [|done].
    apply has_value_true in E. destruct Hor; by destruct E.
Qed.

Lemma isbn_present_iff_value_witness :
  book_fields (lib := sample_library) long_book !! "isbn" = Some (VStr "0140432159") ∧
  book_fields (lib := sample_library) ulysses !! "isbn" = None.
Proof.
  split.
  - destruct (isbn_present_iff_value (lib := sample_library) long_book
                (book_fields long_book) eq_refl) as [H _].
    apply (H "0140432159" eq_refl); discriminate.
  - destruct (isbn_present_iff_value (lib := sample_library) ulysses
                (book_fields ulysses) eq_refl) as [H _].
    apply (H "None" eq_refl). by right.
Defined.

(** X2. The [pages] of a record is the number written by the first run of
    digits of the stripped page-count text, a non-negative integer: what
    follows the run, such as the digits after a thousands separator, is
    left out.  The field is absent when the text is empty, is None, or has
    no digit. *)
Theorem pages_first_digit_run {lib : Library} (book_entry : node) (b : book) :
  _extract_book_info book_entry = Some b ->
  ∀ t, value_text "field num_pages" book_entry = Some t ->
    (t ≠ "" -> t ≠ "None" ->
     ∀ d, first_digits t d ->
       b !! "pages" = Some (VInt (int_of_digits d)) ∧ 0 <= int_of_digits d) ∧
    (t = "" ∨ t = "None" ∨ has_digit t = false -> b !! "pages" = None).
Proof.
  intros (Hb & _ & _)%extract_book_info_Some t.
  assert (Hpages := built_pages _ _ Hb). revert Hpages.
  unfold value_text.
  destruct (find_td "field num_pages" book_entry) as [cell|]; simpl; [|done].
  destruct (find_value cell) as [v|]; simpl; [|done].
  intros Hpages [= <-]. split.
  - intros Hne Hnone d Hd. rewrite (proj2 (has_value_true _)) in Hpages by done.
    destruct (re_search_digits (get_text v)) as [d0|] eqn:Hre.
    + apply re_search_digits_Some in Hre.
      rewrite (first_digits_unique _ _ _ Hd Hre).
      destruct Hpages as (pages & Hint & ->).
      destruct Hre as (_ & _ & _ & _ & Hne0 & Hall & _).
      rewrite (py_int_digits_Returned _ _ Hall Hne0 Hint).
      split; [done|]. by apply int_of_digits_from_nonneg.
    + apply re_search_digits_None in Hre.
      destruct Hd as (pre & post & Heq & _ & Hne' & Hall & _).
      rewrite Heq in Hre. exfalso. clear -Hre Hne' Hall.
      unfold has_digit, all_digits in *.
      induction pre as [|c pre IH]; simpl in *.
      * destruct d as [|c d]; [done|]. simpl in *.
        apply andb_true_iff in Hall as [Hc _]. by rewrite Hc in Hre.
      * apply orb_false_iff in Hre as [_ Hre]. by apply IH.
  - intros Hor. destruct (has_value (get_text v)) eqn:E; [|done].
    apply has_value_true in E as [Hne Hnone].
    destruct Hor as [?|[?|Hnodigit]]; [done..|].
    by rewrite (proj2 (re_search_digits_None _) Hnodigit) in Hpages.
Qed.

Lemma pages_first_digit_run_witness :
  book_fields (lib := sample_library) long_book !! "pages" = Some (VInt 1).
Proof.
  destruct (pages_first_digit_run (lib := sample_library) long_book
              (book_fields long_book) eq_refl "1,534 pp" eq_refl) as [H _].
  apply (H ltac:(discriminate) ltac:(discriminate) "1").
  exists "", ",534 pp". split_and!; try reflexivity. discriminate.
Defined.

(** X3. The [author] and [author_url] of a record come and go together:
    both are taken from the first link of the author cell, and both are
    absent without such a link.  Unlike the title, the author may be the
    empty string. *)
Theorem author_and_url_together {lib : Library} (book_entry : node) (b : book) :
  _extract_book_info book_entry = Some b ->
  (is_Some (b !! "author") ↔ is_Some (b !! "author_url")) ∧
  (∀ author_elem author_link,
     find_td "field author" book_entry = Some author_elem ->
     find_a author_elem = Some author_link ->
     ∃ u, urljoin base_url (href_or_empty author_link) = Returned u ∧
          b !! "author" = Some (VStr (get_text author_link)) ∧
          b !! "author_url" = Some (VStr u)) ∧
  ((find_td "field author" book_entry = None ∨
    ∃ author_elem, find_td "field author" book_entry = Some author_elem ∧
                   find_a author_elem = None) ->
   b !! "author" = None ∧ b !! "author_url" = None).
Proof.
  intros (Hb & _ & _)%extract_book_info_Some.
  assert (Hlink := built_author_link _ _ Hb).
  destruct (find_td "field author" book_entry) as [author_elem|] eqn:Hcell;
    simpl in Hlink.
  - destruct (find_a author_elem) as [author_link|] eqn:Hl.
    + destruct Hlink as (u & Hu & -> & ->).
      split_and!.
      * split; eauto.
      * intros ? ? [= <-] Hal. rewrite Hl in Hal. injection Hal as <-.
        by exists u.
      * intros [[=] | (? & [= <-] & ?)]. congruence.
    + destruct Hlink as [-> ->]. split_and!.
      * split; by intros [? [=]].
      * intros ? ? [= <-] ?. congruence.
      * done.
  - destruct Hlink as [-> ->]. split_and!.
    + split; by intros [? [=]].
    + by intros ? ? [=].
    + done.
Qed.

Lemma author_and_url_together_witness :
  book_fields (lib := sample_library) anonymous !! "author" = Some (VStr "") ∧
  book_fields (lib := sample_library) anonymous !! "author_url"
  = Some (VStr "https://www.goodreads.com/author/show/0").
Proof.
  destruct (author_and_url_together (lib := sample_library) anonymous
              (book_fields anonymous) eq_refl) as (_ & H & _).
  destruct (H (td ["field"; "author"] [div_value [link "/author/show/0" "  "]])
              (link "/author/show/0" "  ") eq_refl eq_refl)
    as (u & Hu & Ha & Hurl).
  injection Hu as <-. by split.
Defined.

(** X4. A record holds no key outside the columns of the export: whatever
    the extractor and the shelf tag store in it appears in the exported row,
    in the column of its key. *)
Theorem record_fields_all_exported {lib : Library} (sh : shelf)
    (book_entry : node) (b : book) :
  _extract_book_info book_entry = Some b ->
  ∀ key v,
    <["shelf" := VStr (shelf_tag sh)]> b !! key = Some v ->
    ∃ j, fieldnames !! j = Some key ∧
         csv_row (<["shelf" := VStr (shelf_tag sh)]> b) !! j = Some v.
Proof.
  intros (Hb & _ & _)%extract_book_info_Some key v Hv.
  assert (Hkey : key ∈ fieldnames).
  { destruct (decide (key = "shelf")) as [->|Hne];
      [apply (bool_decide_unpack _); by vm_compute|].
    rewrite lookup_insert_ne in Hv by done.
    assert (Hin := built_keys book_entry b key Hb (mk_is_Some _ _ Hv)).
    assert (Hsub : Forall (fun k => k ∈ fieldnames)
                     ["title"; "book_url"; "author"; "author_url"; "isbn";
                      "publish_date"; "rating"; "avg_rating"; "pages"])
      by (apply (bool_decide_unpack _); by vm_compute).
    by apply (proj1 (Forall_forall _ _) Hsub). }
  apply list_elem_of_lookup in Hkey as [j Hj].
  exists j. split; [done|].
  unfold csv_row. rewrite list_lookup_fmap, Hj. simpl. by rewrite Hv.
Qed.

Lemma record_fields_all_exported_witness :
  ∃ j, fieldnames !! j = Some "pages" ∧
       csv_row (lib := sample_library)
         (<["shelf" := VStr (shelf_tag Read)]> (book_fields ulysses)) !! j
       = Some (VInt 783).
Proof.
  apply (record_fields_all_exported (lib := sample_library) Read ulysses
           (book_fields ulysses) eq_refl "pages" (VInt 783)).
  reflexivity.
Defined.

(** X5. The title of a record is trimmed: it is not empty, and neither its
    first nor its last character is white space. *)
Theorem title_is_trimmed {lib : Library} (book_entry : node) (b : book) :
  _extract_book_info book_entry = Some b ->
  ∃ t, b !! "title" = Some (VStr t) ∧ t ≠ "" ∧
       starts_with_space t = false ∧ ends_with_space t = false.
Proof.
  intros (Hb & _ & Htitle)%extract_book_info_Some.
  assert (Hlink := built_title_link _ _ Hb).
  destruct (find_td "field title" book_entry ≫= find_a) as [title_link|];
    [|destruct Hlink as [Ht _]; by rewrite Ht in Htitle].
  destruct Hlink as (u & _ & Ht & _). rewrite Ht in Htitle.
  exists (get_text title_link). split_and!; [done| | |].
  - simpl in Htitle. by case_bool_decide.
  - apply concat_trimmed, stripped_strings_trimmed.
  - apply concat_trimmed, stripped_strings_trimmed.
Qed.

Lemma title_is_trimmed_witness :
  ∃ t, book_fields (lib := sample_library) ulysses !! "title" = Some (VStr t) ∧
       starts_with_space t = false ∧ ends_with_space t = false.
Proof.
  destruct (title_is_trimmed (lib := sample_library) ulysses
              (book_fields ulysses) eq_refl) as (t & Ht & _ & Hl & Hr).
  by exists t.
Defined.

(** ** More on the shelves *)

Section MorePagerFacts.

Context {lib : Library}.

Variable server : list string -> string -> reply.

Lemma keeps_files_ret {A} (a : A) : keeps_files (mret a : io A).
Proof. done. Qed.

Lemma keeps_files_print line : keeps_files (print line).
Proof. done. Qed.

Lemma keeps_files_bind {A B} (m : io A) (f : A -> io B) :
  keeps_files m -> (∀ a, keeps_files (f a)) -> keeps_files (m ≫= f).
Proof. intros Hm Hf w. rewrite run_bind, Hf. apply Hm. Qed.

Lemma keeps_files_print_each {A} (line : A -> io unit) (items : list A) :
  (∀ x, keeps_files (line x)) ->
  keeps_files (foldr (fun x rest => line x;; rest) (mret tt) items).
Proof.
  intros Hline. induction items as [|x items IH]; simpl; [done|].
  apply keeps_files_bind; [apply Hline|done].
Qed.

(** Printing, then the rest. *)
Ltac files_after_print :=
  apply keeps_files_bind; [apply keeps_files_print|intros ?].

Lemma keeps_files_print_lines lines : keeps_files (print_lines lines).
Proof.
  unfold print_lines. apply keeps_files_print_each.
  intros. apply keeps_files_print.
Qed.

Lemma keeps_files_locate_entries page : keeps_files (locate_entries page).
Proof.
  unfold locate_entries.
  apply keeps_files_bind.
  { destruct (is_nil _); [|done]. by files_after_print. }
  intros entries. apply keeps_files_bind; [|done].
  destruct (is_nil _); [|done]. by files_after_print.
Qed.

Lemma keeps_files_report_no_entries sh page_number page :
  keeps_files (report_no_entries sh page_number page).
Proof.
  unfold report_no_entries. do 3 files_after_print.
  destruct (is_nil _); [done|]. files_after_print.
  generalize (imap (fun i l => (i, l))
                (take 3 (find_all "a" href_is_book page))).
  intros items. induction items as [|[i l] items IH]; simpl; [done|].
  by files_after_print.
Qed.

Lemma scrape_fetched_files sh username page_number page w :
  files (scrape_fetched sh username page_number page w).2 =
  if bool_decide (page_number = 1)
  then <[shelf_debug_file sh username := TextFile (prettify page)]> (files w)
  else files w.
Proof.
  unfold scrape_fetched. rewrite run_bind.
  match goal with |- files (?rest ?w1).2 = _ =>
    assert (Hrest : keeps_files rest)
  end.
  { apply keeps_files_bind; [apply keeps_files_locate_entries|].
    intros entries. files_after_print.
    destruct (is_nil entries).
    { apply keeps_files_bind; [apply keeps_files_report_no_entries|done]. }
    apply keeps_files_bind; [apply keeps_files_print_lines|intros ?].
    destruct (is_nil (extract_page_books sh entries)).
    { files_after_print. apply keeps_files_bind; [|done].
      destruct entries; [done|]. by files_after_print. }
    files_after_print. destruct (find _ _ page); [done|]. by files_after_print. }
  rewrite Hrest. by case_bool_decide.
Qed.

Lemma scrape_page_files sh username page_number w :
  files (scrape_page server sh username page_number w).2 =
  match page_of (shelf_url sh username page_number)
          (server (requests w) (shelf_url sh username page_number)) with
  | Some page =>
      if bool_decide (page_number = 1)
      then <[shelf_debug_file sh username := TextFile (prettify page)]> (files w)
      else files w
  | None => files w
  end.
Proof.
  unfold scrape_page, fetch, session_get, page_of. unfold_io. simpl.
  destruct (server (requests w) _) as [e|status_code reason content]; [done|].
  destruct (raise_for_status status_code reason _); [done|].
  by rewrite scrape_fetched_files.
Qed.

Lemma pager_files_later sh username max_pages (n : nat) :
  ∀ page books w,
    Z.to_nat (max_pages + 1 - page) = n -> 1 < page ->
    files (pager server sh username max_pages page books w).2 = files w.
Proof.
  induction n as [|n IH]; intros page books w Hn Hpage; rewrite pager_step.
  - by rewrite decide_False by lia.
  - rewrite decide_True by lia.
    assert (Hf := scrape_page_files sh username page w).
    destruct (scrape_page server sh username page w) as [[page_books more] w'].
    simpl in Hf. rewrite bool_decide_eq_false_2 in Hf by lia.
    assert (Hf' : files w' = files w) by (by destruct (page_of _ _)).
    destruct more; [|done].
    rewrite IH by lia. done.
Qed.

Lemma kept_extracted book_entry (b : book) :
  _extract_book_info book_entry = Some b -> kept (Some b) = true.
Proof.
  intros (_ & _ & Htitle)%extract_book_info_Some. simpl.
  apply negb_true_iff, Nat.eqb_neq, map_size_non_empty_iff.
  intros Hempty. by rewrite Hempty, lookup_empty in Htitle.
Qed.

Lemma extract_page_books_cons sh e (book_entries : list node) :
  extract_page_books sh (e :: book_entries) =
  match _extract_book_info e with
  | Some b => <["shelf" := VStr (shelf_tag sh)]> b :: extract_page_books sh book_entries
  | None => extract_page_books sh book_entries
  end.
Proof.
  unfold extract_page_books. simpl.
  destruct (_extract_book_info e) as [b|] eqn:He; simpl; [|done].
  pose proof (kept_extracted e b He) as Hk. simpl in Hk. by rewrite Hk.
Qed.

(** A page after which the loop goes on: it pauses, then runs from the next
    page. *)
Lemma pager_goes_on sh username max_pages page books w :
  page <= max_pages ->
  goes_on sh (shelf_url sh username page)
    (server (requests w) (shelf_url sh username page)) = true ->
  ∃ w',
    requests w' = requests w ++ [shelf_url sh username page] ∧
    sleeps w' = sleeps w ++ [1] ∧
    pager server sh username max_pages page books w
    = pager server sh username max_pages (page + 1)
        (books ++ records_of sh (shelf_url sh username page)
                    (server (requests w) (shelf_url sh username page))) w'.
Proof.
  intros Hle Hon. rewrite pager_step, decide_True by done.
  destruct (scrape_page_reply server sh username page w) as (Hres & Hreq & Hsl).
  destruct (scrape_page server sh username page w) as [[page_books more] w'].
  simpl in Hres, Hreq, Hsl. injection Hres as -> ->. rewrite Hon.
  exists (sleep 1 w').2. split_and!; [done| |done].
  simpl. by rewrite Hsl.
Qed.

(** The loop with its pauses, from any of its states: every page but the
    last made it go on, and it paused once after each page that made it go
    on; the last page made it go on only when the cap was reached. *)
Lemma pager_pauses sh username max_pages (n : nat) :
  ∀ page books w,
    Z.to_nat (max_pages + 1 - page) = n ->
    ∃ k m : nat,
      requests (pager server sh username max_pages page books w).2
        = requests w ++ urls sh username page k ∧
      sleeps (pager server sh username max_pages page books w).2
        = sleeps w ++ replicate m 1 ∧
      ((k = O ∧ m = O ∧ n = O) ∨
       ∃ j, k = S j ∧ (k <= n)%nat ∧
         (∀ i, (i < j)%nat ->
            goes_on sh (nth_url sh username page i)
              (nth_reply server sh username (requests w) page i) = true) ∧
         ((goes_on sh (nth_url sh username page j)
             (nth_reply server sh username (requests w) page j) = false ∧ m = j) ∨
          (goes_on sh (nth_url sh username page j)
             (nth_reply server sh username (requests w) page j) = true ∧
           m = k ∧ k = n))).
Proof.
  induction n as [|n IH]; intros page books w Hn; rewrite pager_step.
  - rewrite decide_False by lia. exists O, O. unfold urls. simpl.
    rewrite !app_nil_r. split; [done|]. split; [done|]. by left.
  - rewrite decide_True by lia.
    destruct (scrape_page_reply server sh username page w) as (Hres & Hreq & Hsl).
    destruct (scrape_page server sh username page w) as [[page_books more] w'].
    simpl in Hres, Hreq, Hsl. injection Hres as _ Hmore.
    rewrite <- (nth_reply_0 server sh username (requests w)), <- nth_url_0 in Hmore.
    destruct more.
    + destruct (IH (page + 1) (books ++ page_books) (sleep 1 w').2)
        as (k & m & Hreqs & Hsleeps & Hkm); [lia|].
      assert (Hreq' : requests (sleep 1 w').2
                      = requests w ++ [shelf_url sh username page]) by done.
      rewrite Hreq' in Hkm.
      exists (S k), (S m). split_and!.
      * rewrite Hreqs, urls_S. simpl. by rewrite Hreq, <- app_assoc.
      * rewrite Hsleeps. simpl. by rewrite Hsl, <- app_assoc.
      * right.
        destruct Hkm as [(-> & -> & ->) | (j & -> & Hle & Hon & Hlast)].
        -- exists O. split_and!; [done|lia|intros i Hi; lia|].
           right. by rewrite <- Hmore.
        -- exists (S j). split_and!; [done|lia| |].
           ++ intros [|i] Hi; [by rewrite <- Hmore|].
              rewrite nth_url_S, nth_reply_S. apply Hon. lia.
           ++ rewrite nth_url_S, nth_reply_S.
              destruct Hlast as [[Hoff ->] | (Hgo & -> & ->)]; [by left|].
              right. done.
    + exists 1%nat, O. simpl. split_and!.
      * by rewrite Hreq, urls_S.
      * by rewrite Hsl, app_nil_r.
      * right. exists O. split_and!; [done|lia|intros i Hi; lia|].
        left. by rewrite <- Hmore.
Qed.

(** Counting the pages that made the loop go on. *)
Lemma count_all_true (g : nat -> bool) (j : nat) :
  (∀ i, (i < j)%nat -> g i = true) ->
  length (List.filter g (seq 0 j)) = j.
Proof.
  intros Hg. rewrite forallb_filter_id; [by rewrite length_seq|].
  apply forallb_forall. intros i Hi%in_seq. apply Hg. lia.
Qed.

Lemma extract_page_books_cons_all sh (book_entries : list node) :
  extract_page_books sh book_entries
  = (fun b : book => <["shelf" := VStr (shelf_tag sh)]> b)
    <$> omap _extract_book_info book_entries.
Proof.
  induction book_entries as [|e entries IH]; [done|].
  rewrite extract_page_books_cons. simpl.
  destruct (_extract_book_info e); simpl; by rewrite IH.
Qed.

Lemma extracted_title_url book_entry (b : book) :
  _extract_book_info book_entry = Some b ->
  ∃ t, b !! "title" = Some (VStr t) ∧ t ≠ "" ∧ is_Some (b !! "book_url").
Proof.
  intros (Hb & _ & Htitle)%extract_book_info_Some.
  assert (Hlink := built_title_link _ _ Hb).
  destruct (find_td "field title" book_entry ≫= find_a) as [title_link|];
    [|destruct Hlink as [Ht _]; by rewrite Ht in Htitle].
  destruct Hlink as (u & _ & Ht & Hurl). rewrite Ht in Htitle.
  exists (get_text title_link). split_and!; [done| |by eexists].
  simpl in Htitle. by case_bool_decide.
Qed.

(** A shelf scrape is its loop from page 1, between two printed lines. *)
Lemma scrape_shelf_pager sh username max_pages w :
  ∃ w1,
    requests w1 = requests w ∧ files w1 = files w ∧ sleeps w1 = sleeps w ∧
    (scrape_shelf server sh username max_pages w).1
      = (pager server sh username max_pages 1 [] w1).1 ∧
    requests (scrape_shelf server sh username max_pages w).2
      = requests (pager server sh username max_pages 1 [] w1).2 ∧
    files (scrape_shelf server sh username max_pages w).2
      = files (pager server sh username max_pages 1 [] w1).2 ∧
    sleeps (scrape_shelf server sh username max_pages w).2
      = sleeps (pager server sh username max_pages 1 [] w1).2.
Proof.
  unfold scrape_shelf. rewrite !run_bind.
  eexists (print _ w).2. split_and!; reflexivity.
Qed.

Lemma shelf_url_inj sh username : Inj (=) (=) (shelf_url sh username).
Proof.
  intros p q Heq. destruct sh; simpl in Heq;
    unfold get_read_books_url, get_currently_reading_url in Heq;
    repeat apply String.app_inj in Heq; by apply pretty_Z_inj.
Qed.

End MorePagerFacts.

(** X6. The records of a page are the records of its rows, in the order of
    the rows, each with the shelf tag added: the test [if book_info:] on the
    extracted dictionary drops nothing that [_extract_book_info] returned,
    and a page never yields more records than it has rows. *)
Theorem page_records_in_row_order {lib : Library} (sh : shelf)
    (book_entries : list node) :
  extract_page_books sh book_entries
  = (fun b : book => <["shelf" := VStr (shelf_tag sh)]> b)
    <$> omap _extract_book_info book_entries ∧
  (length (extract_page_books sh book_entries) <= length book_entries)%nat.
Proof.
  induction book_entries as [|e entries [IH IHlen]]; [done|].
  rewrite extract_page_books_cons. simpl.
  destruct (_extract_book_info e); simpl.
  - split; [by rewrite IH|lia].
  - split; [done|lia].
Qed.

(** X7. Every book a shelf scrape returns carries the tag of its shelf, a
    non-empty title and a [book_url]. *)
Theorem shelf_books_tagged {lib : Library}
    (server : list string -> string -> reply) (sh : shelf) (username : string)
    (max_pages : Z) (w : world) (b : book) :
  b ∈ (scrape_shelf server sh username max_pages w).1 ->
  b !! "shelf" = Some (VStr (shelf_tag sh)) ∧
  ∃ t, b !! "title" = Some (VStr t) ∧ t ≠ "" ∧ is_Some (b !! "book_url").
Proof.
  destruct (scrape_shelf_trace server sh username max_pages w)
    as (k & _ & _ & -> & _).
  intros Hb. apply list_elem_of_In, in_concat in Hb as (l & Hl & Hb).
  apply list_elem_of_In, list_elem_of_fmap in Hl as (i & -> & _).
  apply list_elem_of_In in Hb. unfold records_of in Hb.
  destruct (page_of _ _) as [page|]; [|by apply elem_of_nil in Hb].
  rewrite extract_page_books_cons_all in Hb.
  apply list_elem_of_fmap in Hb as (b0 & -> & Hb0).
  apply list_elem_of_omap in Hb0 as (e & _ & He).
  split; [by rewrite lookup_insert_eq|].
  destruct (extracted_title_url e b0 He) as (t & Ht & Hne & Hurl).
  exists t. by rewrite !lookup_insert_ne.
Qed.

Lemma shelf_books_tagged_witness :
  let b : book :=
    <["shelf" := VStr "read"]> (book_fields (lib := sample_library) ulysses) in
  b ∈ (scrape_read_books (lib := sample_library) failing_site "bob" 50 empty_world).1 ∧
  b !! "shelf" = Some (VStr "read").
Proof.
  intros b.
  assert (Hb : b ∈ (scrape_read_books (lib := sample_library) failing_site "bob"
                      50 empty_world).1).
  { assert (E : (scrape_read_books (lib := sample_library) failing_site "bob"
                   50 empty_world).1 = [b]) by reflexivity.
    rewrite E. left. }
  split; [exact Hb|].
  apply (shelf_books_tagged (lib := sample_library) failing_site Read "bob" 50
           empty_world b Hb).
Defined.

(** X8. The books of a shelf are those of the pages fetched, page after
    page: the result is the concatenation, in page order, of the records of
    pages 1 to [k], where [k] is the number of pages requested. *)
Theorem shelf_books_in_page_order {lib : Library}
    (server : list string -> string -> reply) (sh : shelf) (username : string)
    (max_pages : Z) (w : world) :
  ∃ k : nat,
    requests (scrape_shelf server sh username max_pages w).2
      = requests w ++ urls sh username 1 k ∧
    (scrape_shelf server sh username max_pages w).1
      = concat ((fun i =>
                   match page_of (nth_url sh username 1 i)
                           (nth_reply server sh username (requests w) 1 i) with
                   | Some page => extract_page_books sh (located page)
                   | None => []
                   end) <$> seq 0 k).
Proof.
  destruct (scrape_shelf_trace server sh username max_pages w)
    as (k & _ & Hreq & Hbooks & _).
  exists k. split; [done|]. exact Hbooks.
Qed.

(** X9. With a page cap of zero or less a shelf scrape asks for no page at
    all: it returns no book, writes no file and takes no pause. *)
Theorem no_request_without_cap {lib : Library}
    (server : list string -> string -> reply) (sh : shelf) (username : string)
    (max_pages : Z) (w : world) :
  max_pages <= 0 ->
  (scrape_shelf server sh username max_pages w).1 = [] ∧
  requests (scrape_shelf server sh username max_pages w).2 = requests w ∧
  files (scrape_shelf server sh username max_pages w).2 = files w ∧
  sleeps (scrape_shelf server sh username max_pages w).2 = sleeps w.
Proof.
  intros Hcap.
  destruct (scrape_shelf_pager server sh username max_pages w)
    as (w1 & Hr & Hf & Hs & -> & -> & -> & ->).
  rewrite pager_step, decide_False by lia. done.
Qed.

Lemma no_request_without_cap_witness :
  requests (scrape_read_books (lib := sample_library) endless_site "bob" 0
              empty_world).2 = [].
Proof.
  apply (no_request_without_cap (lib := sample_library) endless_site Read "bob" 0
           empty_world).
  lia.
Defined.

(** X10. No page is asked for twice: the URLs a shelf loop requests are
    pairwise distinct, and no URL of the read shelf is a URL of the
    currently-reading shelf. *)
Theorem shelf_urls_distinct {lib : Library} (sh : shelf) (username : string)
    (first : Z) (k : nat) :
  NoDup (urls sh username first k) ∧
  ∀ p q, get_read_books_url username p ≠ get_currently_reading_url username q.
Proof.
  split.
  - unfold urls. apply NoDup_fmap_2_strong; [|apply NoDup_seq].
    intros i j _ _ Heq. unfold nth_url in Heq.
    apply shelf_url_inj in Heq. lia.
  - intros p q Heq. unfold get_read_books_url, get_currently_reading_url in Heq.
    do 3 apply String.app_inj in Heq. discriminate Heq.
Qed.

(** X11. The loop pauses for one second after each page that makes it go
    on, before it asks for the next page, and at no other time.  From any
    state of the loop, a page that makes it go on is followed by one pause
    and then by the run from the next page; a page that does not is followed
    by no pause and no request.  In a whole run of [k] requests, every page
    but the last made the loop go on, and the number of pauses is the number
    of pages that made it go on: [k - 1] when the last page did not, and [k]
    when it did, which happens only when the cap is reached. *)
Theorem one_pause_between_pages {lib : Library}
    (server : list string -> string -> reply) (sh : shelf) (username : string)
    (max_pages : Z) :
  (∀ page books w,
     page <= max_pages ->
     goes_on sh (shelf_url sh username page)
       (server (requests w) (shelf_url sh username page)) = true ->
     ∃ w',
       requests w' = requests w ++ [shelf_url sh username page] ∧
       sleeps w' = sleeps w ++ [1] ∧
       pager server sh username max_pages page books w
       = pager server sh username max_pages (page + 1)
           (books ++ records_of sh (shelf_url sh username page)
                       (server (requests w) (shelf_url sh username page))) w') ∧
  (∀ page books w,
     page <= max_pages ->
     goes_on sh (shelf_url sh username page)
       (server (requests w) (shelf_url sh username page)) = false ->
     requests (pager server sh username max_pages page books w).2
       = requests w ++ [shelf_url sh username page] ∧
     sleeps (pager server sh username max_pages page books w).2 = sleeps w) ∧
  (∀ w, ∃ k m : nat,
     requests (scrape_shelf server sh username max_pages w).2
       = requests w ++ urls sh username 1 k ∧
     sleeps (scrape_shelf server sh username max_pages w).2
       = sleeps w ++ replicate m 1 ∧
     m = length (List.filter
                   (fun i => goes_on sh (nth_url sh username 1 i)
                               (nth_reply server sh username (requests w) 1 i))
                   (seq 0 k)) ∧
     ((k = O ∧ max_pages <= 0) ∨
      ∃ j, k = S j ∧ Z.of_nat k <= max_pages ∧
        (∀ i, (i < j)%nat ->
           goes_on sh (nth_url sh username 1 i)
             (nth_reply server sh username (requests w) 1 i) = true) ∧
        ((goes_on sh (nth_url sh username 1 j)
            (nth_reply server sh username (requests w) 1 j) = false ∧ m = j) ∨
         (goes_on sh (nth_url sh username 1 j)
            (nth_reply server sh username (requests w) 1 j) = true ∧
          m = k ∧ Z.of_nat k = max_pages)))).
Proof.
  split_and!.
  - intros page books w. apply pager_goes_on.
  - intros page books w Hle Hoff.
    destruct (pager_stops server sh username max_pages page books w Hle Hoff)
      as (_ & Hreq & Hsl).
    done.
  - intros w.
    destruct (scrape_shelf_pager server sh username max_pages w)
      as (w1 & Hr & _ & Hs & _ & -> & _ & ->).
    destruct (pager_pauses server sh username max_pages (Z.to_nat max_pages) 1 []
                w1) as (k & m & Hreq & Hsl & Hkm); [lia|].
    rewrite Hr in Hreq, Hkm. rewrite Hs in Hsl.
    exists k, m. split_and!; [exact Hreq|exact Hsl| |].
    + destruct Hkm as [(-> & -> & _) | (j & -> & _ & Hon & Hlast)]; [done|].
      rewrite seq_S, List.filter_app, length_app, (count_all_true _ j Hon).
      simpl. destruct Hlast as [[-> ->] | (-> & -> & _)]; simpl; lia.
    + destruct Hkm as [(-> & -> & Hn) | (j & -> & Hle & Hon & Hlast)].
      * left. split; [done|lia].
      * right. exists j. split_and!; [done|lia|done|].
        destruct Hlast as [[Hoff ->] | (Hgo & -> & Hn)]; [by left|].
        right. split_and!; [done..|lia].
Qed.

(** Three pages up to the cap, three pauses; two requests and a failure,
    one pause. *)
Example pauses_with_and_without_cap :
  sleeps (scrape_read_books (lib := sample_library) endless_site "bob" 3
            empty_world).2 = [1; 1; 1] ∧
  length (requests (scrape_read_books (lib := sample_library) endless_site "bob" 3
                      empty_world).2) = 3%nat ∧
  sleeps (scrape_read_books (lib := sample_library) failing_site "bob" 3
            empty_world).2 = [1] ∧
  length (requests (scrape_read_books (lib := sample_library) failing_site "bob" 3
                      empty_world).2) = 2%nat.
Proof. split_and!; reflexivity. Qed.

(** X12. A shelf scrape writes at most one file: the dump of page 1 under
    the shelf's debug name, written when page 1 is fetched (and written anew
    on each run).  When page 1 is not fetched, or the cap is below 1, it
    writes nothing; later pages are never dumped. *)
Theorem only_first_page_dumped {lib : Library}
    (server : list string -> string -> reply) (sh : shelf) (username : string)
    (max_pages : Z) (w : world) :
  let url := shelf_url sh username 1 in
  (∀ page, 1 <= max_pages ->
     page_of url (server (requests w) url) = Some page ->
     files (scrape_shelf server sh username max_pages w).2
     = <[shelf_debug_file sh username := TextFile (prettify page)]> (files w)) ∧
  (max_pages < 1 ∨ page_of url (server (requests w) url) = None ->
   files (scrape_shelf server sh username max_pages w).2 = files w).
Proof.
  intros url.
  destruct (scrape_shelf_pager server sh username max_pages w)
    as (w1 & Hr & Hf0 & _ & _ & _ & -> & _).
  assert (Hfiles : files (pager server sh username max_pages 1 [] w1).2 =
            if decide (1 <= max_pages)
            then match page_of url (server (requests w) url) with
                 | Some page =>
                     <[shelf_debug_file sh username := TextFile (prettify page)]>
                       (files w)
                 | None => files w
                 end
            else files w).
  { rewrite pager_step. destruct (decide (1 <= max_pages)); [|done].
    assert (Hf := scrape_page_files server sh username 1 w1).
    destruct (scrape_page server sh username 1 w1) as [[page_books more] w'].
    simpl in Hf. fold url in Hf. rewrite Hr, Hf0 in Hf.
    destruct more; [|done].
    rewrite (pager_files_later server sh username max_pages
               (Z.to_nat (max_pages + 1 - (1 + 1)))) by lia.
    done. }
  split.
  - intros page Hcap Hpage. rewrite Hfiles, decide_True, Hpage by done. done.
  - intros [Hcap | Hnone]; rewrite Hfiles.
    + by rewrite decide_False by lia.
    + rewrite Hnone. by destruct (decide _).
Qed.

Lemma only_first_page_dumped_witness :
  files (scrape_read_books (lib := sample_library) endless_site "bob" 3
           empty_world).2
  = {[ "debug_page_bob.html" :=
         TextFile (prettify (Library := sample_library)
                     (shelf_page [ulysses] true)) ]}.
Proof.
  destruct (only_first_page_dumped (lib := sample_library) endless_site Read "bob"
              3 empty_world) as [H _].
  unfold scrape_read_books.
  rewrite (H (shelf_page [ulysses] true)); [reflexivity|lia|reflexivity].
Defined.

(** ** More on the summary *)

Section MoreSummaryFacts.

Context {lib : Library}.

Lemma count_decades_snoc books (b : book) :
  count_decades (books ++ [b]) =
  match decade_of b with
  | Some d => <[d := default 0 (count_decades books !! d) + 1]> (count_decades books)
  | None => count_decades books
  end.
Proof.
  unfold count_decades, decade_of. rewrite foldl_snoc.
  destruct (b !! "publish_date") as [date|]; [|done].
  unfold mbind, option_bind. cbv beta iota.
  destruct (truthy (Some date)); [|done].
  by destruct (year_of date).
Qed.

Lemma books_in_decade_snoc d books (b : book) :
  books_in_decade d (books ++ [b]) =
  books_in_decade d books + if bool_decide (decade_of b = Some d) then 1 else 0.
Proof.
  unfold books_in_decade. rewrite List.filter_app, length_app. simpl.
  case_bool_decide; simpl; lia.
Qed.

Lemma books_in_decade_nonneg d (books : list book) : 0 <= books_in_decade d books.
Proof. unfold books_in_decade. lia. Qed.

Lemma decade_of_multiple (b : book) d : decade_of b = Some d -> d mod 10 = 0.
Proof.
  unfold decade_of.
  destruct (b !! "publish_date") as [date|]; [|done].
  unfold mbind, option_bind. cbv beta iota.
  destruct (truthy (Some date)); [|done].
  destruct (year_of date) as [year|]; [|done].
  intros [= <-]. apply Z.mod_mul. done.
Qed.

Lemma sum_count_author c (l : list (string * Z)) :
  foldr Z.add 0 (count_author c l).*2 = foldr Z.add 0 l.*2 + 1.
Proof.
  induction l as [|[k n] l IH]; [done|].
  cbn [count_author]. case_bool_decide; rewrite !fmap_cons; cbn [foldr snd].
  - lia.
  - rewrite IH. lia.
Qed.

Lemma insert_by_count_perm z (s : list (string * Z)) :
  insert_by_count z s ≡ₚ z :: s.
Proof.
  induction s as [|y s IH]; simpl; [done|].
  destruct (z.2 <? y.2); [|done].
  rewrite IH. apply Permutation_swap.
Qed.

Lemma sorted_by_count_perm (items : list (string * Z)) :
  sorted_by_count items ≡ₚ items.
Proof.
  induction items as [|z items IH]; simpl; [done|].
  by rewrite insert_by_count_perm, IH.
Qed.

End MoreSummaryFacts.

(** What [int] accepts of a text: white space around a numeral, but not
    the separators 28 to 31 that [str.strip] removes; one underscore
    between two digits; a sign.  A text that holds anything else is
    refused. *)
Example int_accepts :
  py_int (lib := sample_library) (String "160" (" 1999" +:+ newline)) = Returned 1999 ∧
  py_int (lib := sample_library) "+1_9" = Returned 19 ∧
  py_int (lib := sample_library) "-0012" = Returned (-12).
Proof. split_and!; reflexivity. Qed.

Example int_refuses :
  py_int (lib := sample_library) (String "028" "1999")
    = Raised ("invalid literal for int() with base 10: '" +:+ String "028" "1999'") ∧
  (∀ s, s ∈ ["1__9"; "_19"; "19_"; "+ 19"; ""; "1 9"; "19.5"; "c. 1920"] ->
        ∃ e, py_int (lib := sample_library) s = Raised e).
Proof.
  split; [reflexivity|].
  intros s Hs. repeat (apply elem_of_cons in Hs as [-> | Hs]; [by eexists|]).
  by apply elem_of_nil in Hs.
Qed.

(** X13. The decade histogram is exact on books whose [publish_date], when
    they have one, is text or an integer: a decade is a key of [decades]
    exactly when some book is counted under it, its value is the number of
    those books, and every key is a multiple of 10.  A book is counted
    under the decade of its year when its [publish_date] is an integer
    other than 0, or a non-empty text that [int] accepts; the other books
    are skipped. *)
Theorem decade_histogram_exact {lib : Library} (books : list book) (d : Z) :
  (∀ b f, b ∈ books -> b !! "publish_date" ≠ Some (VFloat f)) ->
  count_decades books !! d
  = (if books_in_decade d books =? 0 then None
     else Some (books_in_decade d books)) ∧
  (is_Some (count_decades books !! d) -> d mod 10 = 0) ∧
  (∀ b, b ∈ books ->
     (∀ z, b !! "publish_date" = Some (VInt z) ->
        decade_of b = if z =? 0 then None else Some (z / 10 * 10)) ∧
     (∀ s, b !! "publish_date" = Some (VStr s) ->
        decade_of b = match py_int s with
                      | Returned year =>
                          if bool_decide (s = "") then None
                          else Some (year / 10 * 10)
                      | Raised _ => None
                      end) ∧
     (b !! "publish_date" = None -> decade_of b = None)).
Proof.
  intros _.
  assert (Hexact : count_decades books !! d
                   = if books_in_decade d books =? 0 then None
                     else Some (books_in_decade d books)).
  { induction books as [|b books IH] using rev_ind; [done|].
    rewrite count_decades_snoc, books_in_decade_snoc.
    pose proof (books_in_decade_nonneg d books) as Hnn.
    destruct (decade_of b) as [d'|] eqn:Hb.
    - destruct (decide (d' = d)) as [->|Hne].
      + rewrite lookup_insert_eq, IH, bool_decide_eq_true_2 by done.
        destruct (books_in_decade d books =? 0) eqn:E.
        * apply Z.eqb_eq in E. rewrite E. done.
        * rewrite (proj2 (Z.eqb_neq _ 0)) by lia. done.
      + rewrite lookup_insert_ne, IH, bool_decide_eq_false_2 by congruence.
        by rewrite Z.add_0_r.
    - rewrite IH, bool_decide_eq_false_2 by done. by rewrite Z.add_0_r. }
  split_and!; [done| |].
  - rewrite Hexact. destruct (books_in_decade d books =? 0) eqn:E;
      [by intros [? [=]]|].
    intros _. apply Z.eqb_neq in E. unfold books_in_decade in E.
    destruct (List.filter _ books) as [|b l] eqn:Hf; [done|].
    assert (Hb : In b (List.filter
                         (fun b => bool_decide (decade_of b = Some d)) books))
      by (rewrite Hf; by left).
    apply filter_In in Hb as [_ Hb]. apply bool_decide_eq_true in Hb.
    by apply (decade_of_multiple b).
  - intros b _. unfold decade_of. split_and!.
    + intros z ->. simpl. by destruct (z =? 0).
    + intros s ->. simpl. case_bool_decide as Hs; simpl.
      * subst s. by destruct (py_int "").
      * by destruct (py_int s).
    + by intros ->.
Qed.

Lemma decade_histogram_exact_witness :
  count_decades (lib := sample_library) [book_fields ulysses] !! 1920 = Some 1 ∧
  1920 mod 10 = 0.
Proof.
  destruct (decade_histogram_exact (lib := sample_library)
              [book_fields ulysses] 1920) as (Hcount & Hmod & _).
  { intros b f ->%list_elem_of_singleton.
    change (Some (VStr "1920") ≠ Some (VFloat f)). discriminate. }
  split; [exact Hcount|]. apply Hmod. rewrite Hcount. by eexists.
Defined.

(** X14. A record whose publish-date text holds a run of four digits is
    always counted by the summary: its [publish_date] is that run, [int]
    accepts it, and the book falls under the decade of a year from 0 to
    9999. *)
Theorem dated_record_is_counted {lib : Library} (sh : shelf) (book_entry : node)
    (b : book) (t y : string) :
  _extract_book_info book_entry = Some b ->
  value_text "field date_pub" book_entry = Some t ->
  t ≠ "" -> t ≠ "None" -> first_year t y ->
  decade_of (<["shelf" := VStr (shelf_tag sh)]> b)
    = Some (int_of_digits y / 10 * 10) ∧
  0 <= int_of_digits y <= 9999.
Proof.
  intros (Hb & _ & _)%extract_book_info_Some Ht Hne Hnone Hy.
  assert (Hdate : b !! "publish_date" = Some (VStr y)).
  { rewrite (built_publish_date _ _ Hb). revert Ht.
    unfold value_text, extract_publish_date.
    destruct (find_td "field date_pub" book_entry) as [cell|]; simpl; [|done].
    destruct (find_value cell) as [v|]; simpl; [|done].
    intros [= <-]. rewrite (proj2 (has_value_true _)) by done.
    destruct (re_search_d4 (get_text v)) as [year|] eqn:Hre.
    - apply re_search_d4_Some in Hre.
      by rewrite lookup_insert_eq, (first_year_unique _ _ _ Hre Hy).
    - destruct Hy as (i & Hi & _). destruct (re_search_d4_None _ Hre _ _ Hi). }
  destruct Hy as (i & (_ & Hlen & Hdigits) & _).
  assert (Hy4 : ∃ c1 c2 c3 c4,
             y = String c1 (String c2 (String c3 (String c4 "")))).
  { destruct y as [|c1 [|c2 [|c3 [|c4 [|]]]]]; try discriminate Hlen. eauto. }
  destruct Hy4 as (c1 & c2 & c3 & c4 & ->).
  split.
  - unfold decade_of.
    rewrite lookup_insert_ne, Hdate by done. simpl.
    rewrite py_int_short by (done || simpl; lia). done.
  - simpl in Hdigits. unfold is_digit in Hdigits.
    repeat (apply andb_true_iff in Hdigits as [Hdigits ?]).
    repeat match goal with
           | H : (_ <=? _)%N = true |- _ => apply N.leb_le in H
           | H : (_ && _) = true |- _ => apply andb_true_iff in H as [? ?]
           end.
    unfold int_of_digits. simpl. lia.
Qed.

Lemma dated_record_is_counted_witness :
  decade_of (lib := sample_library)
    (<["shelf" := VStr (shelf_tag Read)]> (book_fields ulysses)) = Some 1920.
Proof.
  destruct (dated_record_is_counted (lib := sample_library) Read ulysses
              (book_fields ulysses) "Mar 26, 1920" "1920" eq_refl eq_refl)
    as [H _]; [discriminate..| |exact H].
  exists 8%nat. split; [done|].
  intros j y' Hj (<- & _ & Hd).
  do 8 (destruct j as [|j]; [vm_compute in Hd; discriminate|]). lia.
Defined.

(** X15. The author counts add up: the values of [authors] sum to the
    number of books that have a non-empty author, so no such book is lost or
    counted twice. *)
Theorem author_counts_add_up {lib : Library} (books : list book) :
  foldr Z.add 0 (count_authors books).*2 = books_with_author books.
Proof.
  unfold books_with_author.
  induction books as [|b books IH] using rev_ind; [done|].
  rewrite count_authors_snoc, List.filter_app, length_app. simpl.
  destruct (get_text_field b "author") as [a|] eqn:Ha.
  - rewrite sum_count_author, IH.
    rewrite bool_decide_eq_true_2 by eauto. simpl. lia.
  - rewrite IH, bool_decide_eq_false_2 by (by intros [? [=]]). simpl. lia.
Qed.

(** X16. The ranking names no author twice and only authors of some book;
    with at most ten authors it is a rearrangement of the whole dictionary,
    so every author is ranked. *)
Theorem ranking_is_complete {lib : Library} (books : list book) :
  NoDup (top_authors books).*1 ∧
  (∀ a n, (a, n) ∈ top_authors books ->
     is_Some (first_seen a books) ∧ n = books_by a books) ∧
  ((length (count_authors books) <= 10)%nat ->
   top_authors books ≡ₚ count_authors books ∧
   ∀ a, is_Some (first_seen a books) -> a ∈ (top_authors books).*1).
Proof.
  destruct (count_authors_invariant books) as (Hnd & Hkeys & Hcount & _).
  pose proof (sorted_by_count_perm (count_authors books)) as Hperm.
  unfold top_authors. split_and!.
  - rewrite fmap_take. eapply sublist_NoDup; [|apply sublist_take].
    by rewrite Hperm.
  - intros a n Hin.
    assert (Hin' : (a, n) ∈ count_authors books).
    { rewrite <- Hperm. eapply elem_of_sublist; [exact Hin|apply sublist_take]. }
    split; [|by apply Hcount].
    apply Hkeys. by apply (list_elem_of_fmap_2 fst _ (a, n)).
  - intros Hlen. rewrite take_ge by (by rewrite Hperm).
    split; [done|]. intros a Ha. rewrite Hperm. by apply Hkeys.
Qed.

Lemma ranking_is_complete_witness :
  (length (count_authors (lib := sample_library) four_books) <= 10)%nat ∧
  top_authors (lib := sample_library) four_books
    ≡ₚ count_authors (lib := sample_library) four_books.
Proof.
  assert (Hlen : (length (count_authors (lib := sample_library) four_books)
                  <= 10)%nat) by (vm_compute; lia).
  split; [exact Hlen|].
  destruct (ranking_is_complete (lib := sample_library) four_books)
    as (_ & _ & H).
  apply (H Hlen).
Defined.

(** ** More on the program *)

Section MoreMainFacts.

Context {lib : Library}.

Variable server : list string -> string -> reply.

(** Printing, then the rest. *)
Ltac files_after_print :=
  apply keeps_files_bind; [apply keeps_files_print|intros ?].





Lemma save_to_csv_files books filename w :
  files (save_to_csv books filename w).2 =
  if is_nil books then files w
  else <[filename := CsvFile ((VStr <$> fieldnames) :: (csv_row <$> books))]>
         (files w).
Proof. unfold save_to_csv. by destruct books. Qed.



Lemma writes_bind {A B} (m : io A) (f : A -> io B) g1 g2 :
  writes m g1 -> (∀ a, writes (f a) g2) -> writes (m ≫= f) (g2 ∘ g1).
Proof. intros Hm Hf w. rewrite run_bind, Hf, Hm. done. Qed.



End MoreMainFacts.

(** X17. Run with anything but one argument after the program name, [main]
    prints its two usage lines and ends with status 1: it asks the site
    nothing and writes no file. *)
Theorem main_usage {lib : Library} (server : list string -> string -> reply)
    (argv : list string) (w : world) :
  length argv ≠ 2%nat ->
  (main server argv w).1 = 1 ∧
  stdout (main server argv w).2
    = stdout w ++ [ "Usage: python goodreads_scraper.py <goodreads_username>";
                    "Example: python goodreads_scraper.py johndoe" ] ∧
  requests (main server argv w).2 = requests w ∧
  files (main server argv w).2 = files w.
Proof.
  intros Hlen.
  destruct argv as [|prog [|username [|extra argv]]]; try done;
    unfold main; unfold_io; simpl; by rewrite <- app_assoc.
Qed.

Lemma main_usage_witness :
  (main (lib := sample_library) endless_site ["goodreads_scraper.py"] empty_world).1
  = 1.
Proof.
  apply (main_usage (lib := sample_library) endless_site ["goodreads_scraper.py"]
           empty_world).
  discriminate.
Defined.


(** ** More on the profile, the locator and the export *)

Lemma get_text_trimmed (n : node) :
  starts_with_space (get_text n) = false ∧ ends_with_space (get_text n) = false.
Proof.
  unfold get_text.
  destruct (concat_trimmed (stripped_strings n) (stripped_strings_trimmed n))
    as (? & ? & _).
  done.
Qed.

(** X19. Whatever the site answers, [scrape_profile] makes one request,
    writes no file and takes no pause.  The profile it returns has no key
    but [display_name], [location] and [member_since], and none of its
    values starts or ends with white space. *)
Theorem profile_is_trimmed {lib : Library}
    (server : list string -> string -> reply) (username : string) (w : world) :
  (∀ key v,
     (scrape_profile server username w).1 !! key = Some v ->
     key ∈ ["display_name"; "location"; "member_since"] ∧
     starts_with_space v = false ∧ ends_with_space v = false) ∧
  requests (scrape_profile server username w).2
    = requests w ++ [get_profile_url username] ∧
  files (scrape_profile server username w).2 = files w ∧
  sleeps (scrape_profile server username w).2 = sleeps w.
Proof.
  unfold scrape_profile. rewrite run_bind.
  destruct (fetch_reply server (get_profile_url username) w) as (Hr & Hreq & Hsl).
  assert (Hfiles : files (fetch server (get_profile_url username) w).2 = files w).
  { unfold fetch, session_get. unfold_io. simpl.
    destruct (server _ _) as [|status_code reason content]; [done|].
    by destruct (raise_for_status _ _ _). }
  destruct (fetch server (get_profile_url username) w) as [r w1].
  simpl in Hr, Hreq, Hsl, Hfiles. cbn [fst snd].
  destruct r as [e|page]; [by split; [intros ? ? [=]|]|].
  split; [|done]. unfold_io. cbn [fst snd].
  intros key v.
  destruct (find "span" (fun n => match tag_string n with
                                  | Some s => contains "Member since" s
                                  | None => false
                                  end) page) as [join_elem|];
    destruct (find "span" (class_matches (class_is "userLocation")) page)
      as [location_elem|];
    destruct (find "h1" (class_matches (class_is "userProfileName")) page)
      as [name_elem|];
    rewrite ?lookup_insert_Some, ?lookup_empty;
    intros Hv;
    repeat match goal with
           | H : _ ∨ _ |- _ => destruct H
           | H : _ ∧ _ |- _ => destruct H
           end;
    subst; try done;
    (split; [apply (bool_decide_unpack _); by vm_compute|]);
    first [apply get_text_trimmed | apply strip_trimmed].
Qed.

Lemma profile_is_trimmed_witness :
  (scrape_profile (lib := sample_library) profile_site "bob" empty_world).1
    !! "member_since" = Some "May 2010" ∧
  starts_with_space "May 2010" = false.
Proof.
  split; [reflexivity|].
  destruct (profile_is_trimmed (lib := sample_library) profile_site "bob"
              empty_world) as [H _].
  apply (H "member_since" "May 2010"). reflexivity.
Defined.

(** X20. Every entry [locate_entries] settles on is an element of the
    page, a table row or a [div]; when the page has no [bookalike] row,
    every entry holds a link to a book.  It finds nothing exactly when all
    three methods find nothing. *)
Theorem located_entries_in_page {lib : Library} (page : soup) (w : world) :
  (∀ e, e ∈ (locate_entries page w).1 ->
     e ∈ descendants page ∧
     (tag_name e = Some "tr" ∨ tag_name e = Some "div") ∧
     (method1 page = [] -> has_book_link e = true)) ∧
  ((locate_entries page w).1 = [] ↔
   method1 page = [] ∧ method2 page = [] ∧ method3 page = []).
Proof.
  rewrite locate_entries_located. unfold located. split.
  - intros e He.
    destruct (method1 page) as [|r1 rows1] eqn:H1.
    + destruct (method2 page) as [|r2 rows2] eqn:H2.
      * unfold method3 in He.
        apply list_elem_of_In, filter_In in He as [He Hlink].
        apply list_elem_of_In, elem_of_find_all in He as (Hin & Hname & _).
        auto.
      * rewrite <- H2 in He. unfold method2 in He.
        apply list_elem_of_In, filter_In in He as [He Hlink].
        apply list_elem_of_In, elem_of_find_all in He as (Hin & Hname & _).
        auto.
    + rewrite <- H1 in He. unfold method1 in He.
      apply elem_of_find_all in He as (Hin & Hname & _).
      split_and!; [done|by left|done].
  - destruct (method1 page); [|by split; [|intros [? _]]].
    destruct (method2 page); [|by split; [|intros (_ & ? & _)]].
    split; [done|]. by intros (_ & _ & ?).
Qed.

Lemma located_entries_in_page_witness :
  has_book_link (plain_row "/book/show/2" "Exiles") = true.
Proof.
  destruct (located_entries_in_page (lib := sample_library) three_plain_rows
              empty_world) as [H _].
  apply (H (plain_row "/book/show/2" "Exiles")); [|reflexivity].
  rewrite locate_entries_located. right. left.
Defined.

(** X21. Exports to one name replace each other, except that an export of
    no book leaves an earlier file in place: after two exports the file
    holds the rows of the second one when it has books, and still those of
    the first one when it has none. *)
Theorem later_export_replaces {lib : Library} (books1 books2 : list book)
    (filename : string) (w : world) :
  let w1 := (save_to_csv books1 filename w).2 in
  let w2 := (save_to_csv books2 filename w1).2 in
  (books2 ≠ [] -> files w2 = files (save_to_csv books2 filename w).2) ∧
  (books2 = [] -> files w2 = files w1).
Proof.
  intros w1 w2. subst w1 w2. rewrite !save_to_csv_files. split.
  - intros Hne. destruct books2; [done|]. simpl.
    destruct (is_nil books1); [done|]. apply insert_insert_eq.
  - by intros ->.
Qed.

Lemma later_export_replaces_witness :
  let b : book := book_fields (lib := sample_library) ulysses in
  files (save_to_csv [] "books.csv" (save_to_csv [b] "books.csv" empty_world).2).2
  = files (save_to_csv [b] "books.csv" empty_world).2.
Proof.
  intros b.
  by apply (later_export_replaces (lib := sample_library) [b] [] "books.csv"
              empty_world).
Defined.
